(** * Bitbucket Branch Sanitizer: a shallow embedding of
      [BitBucketBranchSanitizer.py] and the properties of its two-phase
      retention cycle (classification on scan day, reconciliation and
      deletion on delete day).

    Conventions of the embedding.
    - A calendar date is the number of days since 1970-01-01 (an integer);
      [format_date] and [str] are inverse to each other on dates, and the
      difference of two dates in days is the difference of their numbers.
    - The hosting service is a deterministic function of the requests made
      so far and of the current request; every request made through the
      [RequestsApi] session is appended to the history of the world.
    - A Python function that can raise returns in the monad [io], whose
      results are [inl e] (the exception [e] propagates) or [inr v]; the
      world reached when the exception was raised is kept.
    - The coroutines of the program never await: a task started by
      [asyncio.gather] runs from its first statement to its last without
      another task in between, and the tasks start in the order given.
    - Logging through [logging.info] is not part of the embedding, nor are
      the arguments [index] and [total_len] that only serve it. *)

From Stdlib Require Import ZArith List Bool String Ascii Lia DecimalString.
From stdpp Require Import base gmap strings list.
Import ListNotations.

Local Open Scope Z_scope.

(** ** Data *)

(** One element of the ["values"] of the branch listing. *)
Record branch := Branch { displayId : string; latestCommit : string }.

(** One element of the ["values"] of the branch-permission listing:
    [i["id"]] and [i["matcher"]["displayId"]]. *)
Record restriction := Restriction { restriction_id : Z; matcher_displayId : string }.

(** A result row [[branch_name, latest_commit, delta, status]]. *)
Record row := Row {
  row_name : string;      (* row[0] *)
  row_commit : string;    (* row[1] *)
  row_delta : Z;          (* row[2] *)
  row_status : string     (* row[3] *)
}.

Definition RETAINED : string := "RETAINED".
Definition MARKED_FOR_DELETION : string := "MARKED FOR DELETION".
Definition DELETED : string := "DELETED".

(** The requests the program sends; the constructor fixes the endpoint of
    [load_config] that is used and the HTTP method, its arguments are the
    parts of the URL or of the body that vary. *)
Inductive call :=
| GetRepositories (project : string)
| GetBranches (project repository : string)
| GetCommitStats (project repository commit_id : string)
| GetBranchPermissions (project repository : string)
| DeleteBranchPermission (project repository : string) (id : Z)
| DeleteBranch (project repository name endPoint : string).

(** The JSON document of a response, as far as the program reads it. *)
Inductive json :=
| JRepositories (names : list string)          (* {"values": [{"name": ..}, ..]} *)
| JBranches (values : list branch)             (* {"values": [{"displayId": .., "latestCommit": ..}, ..]} *)
| JCommit (committerTimestamp : Z)             (* {"committerTimestamp": ..} *)
| JRestrictions (values : list restriction)    (* {"values": [{"id": .., "matcher": ..}, ..]} *)
| JOther.                                      (* any other document, e.g. {"errors": ..} *)

Record response := Response { status_code : Z; body : json }.

(** The argument of the [ValueError]s the program raises. *)
Inductive message :=
| PermissionListingFailed (document : json)
| ErrorDeletingBranchPermissions (name : string) (code : Z).

Inductive exn :=
| ValueError (msg : message)
| KeyError (key : string)
| TypeError (msg : string)
| UnboundLocalError (variable : string)
| FileNotFoundError (path : string)
| OtherError (what : string)
| SystemExit (code : Z).

(** [SystemExit] derives from [BaseException] only: [except Exception]
    does not catch it. *)
Definition is_Exception (e : exn) : bool :=
  match e with SystemExit _ => false | _ => true end.

(** The [results] directory: [results/state.json] and the branch-purging
    log that [generate_report] appends to. *)
Record results_dir := ResultsDir {
  state_json : option (gmap string (list row));
  purging_log : list (string * list row)
}.

Record world := World {
  history : list call;           (* requests sent so far, oldest first *)
  results : option results_dir   (* None: the directory does not exist *)
}.

(** The configuration file, and the configuration [load_config] builds
    from it for one project and repository. *)
Record config_file := ConfigFile {
  file_url : string;
  file_branches_to_exclude : list string;
  file_thresholds : gmap string Z
}.

Record config := Config {
  url : string;
  project : string;          (* the project the endpoints are built for *)
  repository : string;       (* the repository the endpoints are built for *)
  branches_to_exclude : list string;
  thresholds : gmap string Z
}.

Record arguments := Arguments {
  arg_username : string;
  arg_password : string;
  arg_project : string;
  arg_config : string;
  arg_repositories : option string
}.

(** ** The monad of the program: a world, and a result or an exception *)

Definition io (A : Type) : Type := world -> world * (exn + A).

Definition ret {A} (a : A) : io A := fun w => (w, inr a).

Definition raise {A} (e : exn) : io A := fun w => (w, inl e).

Definition bind {A B} (m : io A) (k : A -> io B) : io B :=
  fun w => match m w with
           | (w', inl e) => (w', inl e)
           | (w', inr a) => k a w'
           end.

Definition lift {A} (r : exn + A) : io A := fun w => (w, r).

Declare Scope io_scope.
Delimit Scope io_scope with io.
Notation "'let!' x := m 'in' k" := (bind m (fun x => k))
  (at level 10, x name, m at level 200, k at level 200, only parsing) : io_scope.
Local Open Scope io_scope.

(** ** Strings *)

(** [s.split("/")[0]]: the text before the first [/]. *)
Fixpoint split_head (s : string) : string :=
  match s with
  | EmptyString => EmptyString
  | String c rest => if Ascii.eqb c "/" then EmptyString else String c (split_head rest)
  end.

(** [s.split(",")]. *)
Fixpoint split_comma (s : string) : list string :=
  match s with
  | EmptyString => [EmptyString]
  | String c rest =>
      if Ascii.eqb c "," then EmptyString :: split_comma rest
      else match split_comma rest with
           | [] => [String c EmptyString]
           | hd :: tl => String c hd :: tl
           end
  end.

(** [sub in s]. *)
Fixpoint contains (sub s : string) : bool :=
  String.prefix sub s ||
  match s with
  | EmptyString => false
  | String _ rest => contains sub rest
  end.

(** ** Dates *)

(** The timestamps, in milliseconds, that [datetime.utcfromtimestamp]
    converts: those of the years 1 to 9999, from 0001-01-01 00:00:00.000 to
    9999-12-31 23:59:59.999. *)
Definition datetime_range (committerTimestamp : Z) : bool :=
  (-62135596800000 <=? committerTimestamp) && (committerTimestamp <=? 253402300799999).

(** [datetime.utcfromtimestamp(ms / 1000.0).strftime("%Y-%m-%d")], then
    [format_date]: the day of a timestamp in milliseconds, for a timestamp
    in the range of [datetime]. *)
Definition utc_day (committerTimestamp : Z) : Z := committerTimestamp / 86400000.

(** [date.weekday()]: Monday is 0; 1970-01-01 was a Thursday. *)
Definition weekday (day : Z) : Z := (day + 3) mod 7.

(** ** The merge of the session settings

    A value of a setting is a dictionary, kept as the list of its items in
    the order of insertion, with each key once, or anything else. *)
#[warnings="-register-all"]
Inductive pyvalue :=
| PyAtom (a : string)
| PyDict (items : list (string * pyvalue)).

(** [d.get(key)]. *)
Fixpoint dict_get (key : string) (d : list (string * pyvalue)) : option pyvalue :=
  match d with
  | [] => None
  | (k, v) :: rest => if String.eqb k key then Some v else dict_get key rest
  end.

(** [d[key] = value]: the value of a present key is replaced where it is,
    and a new key is added at the end. *)
Fixpoint dict_set (key : string) (value : pyvalue) (d : list (string * pyvalue))
    : list (string * pyvalue) :=
  match d with
  | [] => [(key, value)]
  | (k, v) :: rest =>
      if String.eqb k key then (k, value) :: rest else (k, v) :: dict_set key value rest
  end.

(** [RequestsApi.__deep_merge(source, destination)] for the dictionary
    [source]: the result is the destination after the loop. A destination
    that is not a dictionary has no [setdefault] (AttributeError) and takes
    no item (TypeError). *)
Fixpoint deep_merge (source : pyvalue) (destination : pyvalue) {struct source}
    : exn + pyvalue :=
  match source with
  | PyAtom _ => inr destination
  | PyDict items =>
      (fix loop (items : list (string * pyvalue)) (destination : pyvalue)
         : exn + pyvalue :=
         match items with
         | [] => inr destination
         | (key, value) :: rest =>
             match value with
             | PyDict _ =>
                 match destination with
                 | PyDict d =>
                     let node := default (PyDict []) (dict_get key d) in
                     match deep_merge value node with
                     | inl e => inl e
                     | inr node => loop rest (PyDict (dict_set key node d))
                     end
                 | PyAtom _ => inl (OtherError "AttributeError")
                 end
             | PyAtom _ =>
                 match destination with
                 | PyDict d => loop rest (PyDict (dict_set key value d))
                 | PyAtom _ =>
                     inl (TypeError "object does not support item assignment")
                 end
             end
         end) items destination
  end.

(** ** The report

    Text is counted in characters of one byte; the names, commits and
    statuses of the program are ASCII. *)

(** [str(n)] of an integer. *)
Definition str_int (n : Z) : string := NilZero.string_of_int (Z.to_int n).

(** A cell of a row of the report: a string, or the integer of the
    inactivity. *)
Inductive cell :=
| CStr (s : string)
| CInt (n : Z).

(** [str(cell)]. *)
Definition str_cell (c : cell) : string :=
  match c with
  | CStr s => s
  | CInt n => str_int n
  end.

(** [c * n]. *)
Fixpoint repeat_char (c : ascii) (n : nat) : string :=
  match n with
  | O => EmptyString
  | S n => String c (repeat_char c n)
  end.

(** [format] of one cell by the field [{:width}]: a string is padded with
    spaces on its right and an integer on its left, and neither is cut. *)
Definition format_cell (width : nat) (c : cell) : string :=
  match c with
  | CStr s => s ++ repeat_char " " (width - String.length s)
  | CInt n => repeat_char " " (width - String.length (str_int n)) ++ str_int n
  end.

(** The four cells of a result row. *)
Definition row_cells (r : row) : list cell :=
  [CStr (row_name r); CStr (row_commit r); CInt (row_delta r); CStr (row_status r)].

(** The loop of [format_data] over the cells of one row:
    [widths[i] = max(len(str(cell)), widths[i])]. A row of the program has
    as many cells as there are widths. *)
Fixpoint update_widths (widths : list nat) (cells : list cell) : list nat :=
  match cells, widths with
  | c :: cells, width :: widths =>
      Nat.max (String.length (str_cell c)) width :: update_widths widths cells
  | _, _ => widths
  end.

(** [formatted_row.format] of the cells of a row, where [formatted_row] is
    the fields of the widths joined by spaces. *)
Definition formatted_row (widths : list nat) (cells : list cell) : string :=
  String.concat " " (zip_with format_cell widths cells).

Definition header : list string :=
  ["BRANCH"; "LAST COMMIT"; "INACTIVE (days)"; "STATUS"]%string.

Definition format_data (data_list : list row) : list string :=
  let separator := map (fun i => repeat_char "-" (String.length i)) header in
  let widths :=
    fold_left (fun widths row => update_widths widths (row_cells row)) data_list
      (map String.length header) in
  formatted_row widths (map CStr header)
  :: formatted_row widths (map CStr separator)
  :: map (fun row => formatted_row widths (row_cells row)) data_list.

(** [s.lower()] of ASCII text. *)
Definition lower_char (c : ascii) : ascii :=
  let n := nat_of_ascii c in
  if (65 <=? n)%nat && (n <=? 90)%nat then ascii_of_nat (n + 32) else c.

Fixpoint lower (s : string) : string :=
  match s with
  | EmptyString => EmptyString
  | String c rest => String (lower_char c) (lower rest)
  end.

(** The counting loop of [generate_report]: the rows whose status holds
    [retained], whatever the case, and the others. *)
Definition count_rows (results : list row) : nat * nat :=
  fold_left (fun counts i =>
               if contains "retained" (lower (row_status i))
               then (S (fst counts), snd counts)
               else (fst counts, S (snd counts)))
    results (0%nat, 0%nat).

(** What [generate_report] does to the body of the summary table: a line
    [[repository, total, retained, deleted]] is appended when the table of
    the rows has more than its two heading lines and a row was counted as
    deleted. *)
Definition report_body (repository : string) (results : list row)
    (body : list (string * nat * nat * nat)) : list (string * nat * nat * nat) :=
  if (2 <? length (format_data results))%nat then
    let total := length results in
    let (retained, deleted) := count_rows results in
    if (0 <? deleted)%nat then body ++ [(repository, total, retained, deleted)] else body
  else body.

(** ** A sample project

    The project [PRJ] with the repository [R], on 2024-03-10 (day 19792):
    [release/1.0] was last committed to on 2024-01-01 and [feature/x] on
    2024-02-20; releases are kept 30 days and other branches 45. *)
Module Scenario.

Definition day_2024_03_10 : Z := 19792.

Definition release : branch := Branch "release/1.0" "c1".
Definition feature : branch := Branch "feature/x" "c2".
Definition hotfix : branch := Branch "hotfix/2" "c4".
Definition live_branches : list branch := [release; feature; hotfix].

Definition file : config_file :=
  ConfigFile "https://bitbucket.example" ["staging"%string]
    (<["release"%string := 30]> (<["default"%string := 45]> ∅)).

Definition cfg : config :=
  Config "https://bitbucket.example" "PRJ" "R"
    ["master"; "develop"; "staging"]%string
    (<["release"%string := 30]> (<["default"%string := 45]> ∅)).

Definition args : arguments :=
  Arguments "user" "secret" "PRJ" "./config.json" (Some "R,S"%string).

(** The day of each commit, in milliseconds: 2024-01-01, 2024-02-20,
    2024-03-11 (a day after the run) and 2024-01-20. *)
Definition commit_timestamp (commit_id : string) : option Z :=
  if String.eqb commit_id "c1" then Some 1704067200000
  else if String.eqb commit_id "c2" then Some 1708387200000
  else if String.eqb commit_id "c3" then Some 1710115200000
  else if String.eqb commit_id "c4" then Some 1705708800000
  else None.

(** A service that answers every request with success; [permission_status]
    is the status of the deletion of a permission. *)
Definition service (permission_status : Z) (h : list call) (c : call) : response :=
  match c with
  | GetRepositories _ => Response 200 (JRepositories ["R"; "S"]%string)
  | GetBranches _ _ => Response 200 (JBranches live_branches)
  | GetCommitStats _ _ commit_id =>
      match commit_timestamp commit_id with
      | Some ts => Response 200 (JCommit ts)
      | None => Response 404 JOther
      end
  | GetBranchPermissions _ _ => Response 200 (JRestrictions [Restriction 7 "release/1.0"])
  | DeleteBranchPermission _ _ _ => Response permission_status JOther
  | DeleteBranch _ _ _ _ => Response 204 JOther
  end.

(** An operating system that opens the log of a project unless its name
    has a slash. *)
Definition opens_log (project : string) : bool := negb (contains "/" project).

Definition stored_release : row := Row "release/1.0" "c1" 69 MARKED_FOR_DELETION.
Definition stored_feature : row := Row "feature/x" "c2" 19 RETAINED.
Definition stored_hotfix : row := Row "hotfix/2" "c4" 50 MARKED_FOR_DELETION.

(** The world before any request, without the [results] directory, and
    the world of a delete day, with the rows of the scan in the state file. *)
Definition fresh : world := World [] None.

Definition delete_day : world :=
  World [] (Some (ResultsDir (Some {["R"%string := [stored_release; stored_hotfix]]}) [])).

End Scenario.

Section Program.

Set Default Proof Using "Type".

(** The hosting service and the date of the run. *)
Variable bitbucket : list call -> call -> response.
Variable today : Z.

(** What [argument_parser] returns for the command line, and what
    [json.load] finds in the configuration file ([inl]: the exception of
    [open] or [json.load], or a missing key). *)
Variable command_line : exn + arguments.
Variable configuration : exn + config_file.

(** Whether the operating system opens, for appending, the log of a project
    in an existing [results] directory, the file
    [results/{PROJECT}-Bitbucket-Branch-Purging-{today}.log]: it does not
    when the name of the project leads out of the directory, as with a
    slash, or is no file name. *)
Variable opens_log : string -> bool.

(** [bitbucket.get(url)] and [bitbucket.delete(url)]. *)
Definition request (c : call) : io response :=
  fun w => (World (history w ++ [c]) (results w), inr (bitbucket (history w) c)).

Definition argument_parser : io arguments := lift command_line.

Definition load_config (project repository : string) : io config :=
  let! file := lift configuration in
  ret (Config (file_url file) project repository
         (["master"; "develop"]%string ++ file_branches_to_exclude file)
         (file_thresholds file)).

Definition get_threshold (branch_name : string) (cfg : config) : exn + Z :=
  let branch_prefix := split_head branch_name in
  match thresholds cfg !! branch_prefix with
  | Some days => inr days
  | None =>
      match thresholds cfg !! "default"%string with
      | Some days => inr days
      | None => inl (KeyError "default")
      end
  end.

(** [get_last_commit_date]. A timestamp out of the range of [datetime]
    makes [utcfromtimestamp] raise: a ValueError for a year that is out of
    range, an OverflowError or an OSError for a timestamp that the platform
    does not convert; the embedding has one exception for the three. *)
Definition get_last_commit_date (cfg : config) (commit_id : string) : io Z :=
  let! commit_stats := request (GetCommitStats (project cfg) (repository cfg) commit_id) in
  match body commit_stats with
  | JCommit committerTimestamp =>
      if datetime_range committerTimestamp then ret (utc_day committerTimestamp)
      else raise (OtherError "utcfromtimestamp: timestamp out of range")
  | _ => raise (KeyError "committerTimestamp")
  end.

(** [filter_branches]: [None] is Python's [None], returned for an excluded
    branch. *)
Definition filter_branches (cfg : config) (branch_info : branch) : io (option row) :=
  let exclude := bool_decide (displayId branch_info ∈ branches_to_exclude cfg) in
  if negb exclude then
    let! threshold := lift (get_threshold (displayId branch_info) cfg) in
    let! last_commit_date := get_last_commit_date cfg (latestCommit branch_info) in
    let delta := today - last_commit_date in
    let status := if delta <=? threshold then RETAINED else MARKED_FOR_DELETION in
    ret (Some (Row (displayId branch_info) (latestCommit branch_info) delta status))
  else ret None.

(** [delete_branch]. Its caller passes as [body] the string that
    [json.dumps] returns, so that [body['name']] in the message of the
    [ValueError] indexes a string with a string: on a status other than 204
    the exception that leaves the function is the [TypeError] of that
    indexing. *)
Definition delete_branch (cfg : config) (name endPoint : string) : io string :=
  let! response := request (DeleteBranch (project cfg) (repository cfg) name endPoint) in
  if negb (status_code response =? 204) then
    raise (TypeError "string indices must be integers")
  else ret DELETED.

(** The loop of [delete_branch_permissions] over the restrictions. *)
Fixpoint delete_matching_permissions (cfg : config) (branch_name : string)
    (values : list restriction) : io unit :=
  match values with
  | [] => ret tt
  | i :: rest =>
      if String.eqb branch_name (matcher_displayId i) then
        let! response :=
          request (DeleteBranchPermission (project cfg) (repository cfg) (restriction_id i)) in
        if negb (status_code response =? 204) then
          raise (ValueError (ErrorDeletingBranchPermissions branch_name (status_code response)))
        else delete_matching_permissions cfg branch_name rest
      else delete_matching_permissions cfg branch_name rest
  end.

Definition delete_branch_permissions (cfg : config) (branch_name : string) : io unit :=
  let! get_branch_permissions := request (GetBranchPermissions (project cfg) (repository cfg)) in
  if negb (status_code get_branch_permissions =? 200) then
    raise (ValueError (PermissionListingFailed (body get_branch_permissions)))
  else
    match body get_branch_permissions with
    | JRestrictions values => delete_matching_permissions cfg branch_name values
    | _ => raise (KeyError "values")
    end.

(** The loop of [process_branches_for_deletion] over the live branches;
    [delta] is [None] as long as the local variable is not assigned. *)
Fixpoint reconcile_delta (cfg : config) (branch_info : row) (branches : list branch)
    (delta : option Z) : io (option Z) :=
  match branches with
  | [] => ret delta
  | _b :: rest =>
      if String.eqb (displayId _b) (row_name branch_info) then
        if String.eqb (latestCommit _b) (row_commit branch_info) then
          reconcile_delta cfg branch_info rest (Some (row_delta branch_info))
        else
          let! last_commit_date := get_last_commit_date cfg (latestCommit _b) in
          reconcile_delta cfg branch_info rest (Some (today - last_commit_date))
      else reconcile_delta cfg branch_info rest delta
  end.

Definition process_branches_for_deletion (cfg : config) (branch_info : row)
    (branches : list branch) : io row :=
  let branch_name := row_name branch_info in
  let latest_commit := row_commit branch_info in
  let status := row_status branch_info in
  let! delta := reconcile_delta cfg branch_info branches None in
  let! threshold := lift (get_threshold branch_name cfg) in
  match delta with
  | None => raise (UnboundLocalError "delta")
  | Some delta =>
      if (delta >? threshold) && String.eqb status MARKED_FOR_DELETION then
        let! _ := delete_branch_permissions cfg branch_name in
        let! status := delete_branch cfg branch_name latest_commit in
        ret (Row branch_name latest_commit delta status)
      else ret (Row branch_name latest_commit delta status)
  end.

(** ** The state store *)

(** [read_from_json]: [None] is Python's [None], returned (after the
    error is logged) when [results/state.json] does not exist. *)
Definition read_from_json : io (option (gmap string (list row))) :=
  fun w => (w, inr (match results w with
                    | Some dir => state_json dir
                    | None => None
                    end)).

(** [json.dump] into [results/state.json], opened for writing. *)
Definition dump_state (data : gmap string (list row)) : io unit :=
  fun w => match results w with
           | Some dir => (World (history w) (Some (ResultsDir (Some data) (purging_log dir))), inr tt)
           | None => (w, inl (FileNotFoundError "results/state.json"))
           end.

Definition write_to_json (repository : string) (results : list row) : io unit :=
  let! stored := read_from_json in
  let data :=
    match stored with
    | Some data =>
        if bool_decide (data !! repository = None)
           || negb (Nat.eqb (length (default [] (data !! repository))) (length results))
        then <[repository := results]> data
        else data
    | None => {[repository := results]}
    end in
  dump_state data.

(** [generate_report], as far as the result rows go. With at least one
    row, the log of the project is opened for appending and the block of the
    repository is added to it; then, with or without rows, [index.html] is
    written in [results]. The log that cannot be opened raises an OSError,
    the FileNotFoundError when a directory of its path does not exist. The
    contents of [index.html] are not part of the embedding. *)
Definition generate_report (project repository : string) (rows : list row) : io unit :=
  fun w => match rows, results w with
           | [], Some dir => (w, inr tt)
           | [], None => (w, inl (FileNotFoundError "results/index.html"))
           | _ :: _, Some dir =>
               if opens_log project then
                 (World (history w)
                    (Some (ResultsDir (state_json dir)
                             (purging_log dir ++ [(repository, rows)]))), inr tt)
               else (w, inl (OtherError "OSError: the log of the project"))
           | _ :: _, None =>
               (w, inl (FileNotFoundError
                          "results/{PROJECT}-Bitbucket-Branch-Purging-{today}.log"))
           end.

(** ** The fan-out *)

(** [asyncio.gather] over a list of coroutines that never suspend (none of the
    coroutines of the program awaits): the event loop runs the tasks to
    completion one after the other, in the order of the list, whether or not
    an earlier one raised; [gather] then raises the exception of the first
    task that raised, or returns all the results. *)
Fixpoint gather {A} (tasks : list (io A)) : io (list A) :=
  match tasks with
  | [] => ret []
  | task :: rest =>
      fun w =>
        let (w1, r) := task w in
        let (w2, rs) := gather rest w1 in
        (w2, match r, rs with
             | inl e, _ => inl e
             | inr _, inl e => inl e
             | inr a, inr l => inr (a :: l)
             end)
  end.

(** ** The run *)

(** The body of the loop of [main] over the repositories. *)
Definition process_repository (project : string) (is_friday : bool) (repository : string)
    : io unit :=
  let _process_branches_flag := negb is_friday in
  let _delete_branches_flag := is_friday in
  if contains "deprecated" repository then ret tt
  else
    let! _config := load_config project repository in
    let! branches := request (GetBranches project repository) in
    let! values := match body branches with
                   | JBranches values => ret values
                   | _ => raise (KeyError "values")
                   end in
    let! results :=
      (if _process_branches_flag then
         let! results := gather (map (filter_branches _config) values) in
         let results := omap id results in
         let! _ := write_to_json repository results in
         ret (Some results)
       else ret None) in
    let! results :=
      (if _delete_branches_flag then
         let! stored := read_from_json in
         match stored with
         | None => raise (TypeError "'NoneType' object is not subscriptable")
         | Some data =>
             match data !! repository with
             | None => raise (KeyError repository)
             | Some repo_branch_data =>
                 let! results :=
                   gather (map (fun branch_info =>
                                  process_branches_for_deletion _config branch_info values)
                             repo_branch_data) in
                 ret (Some results)
             end
         end
       else ret results) in
    match results with
    | Some results => generate_report project repository results
    | None => raise (UnboundLocalError "results")
    end.

Fixpoint for_each {A} (items : list A) (body : A -> io unit) : io unit :=
  match items with
  | [] => ret tt
  | item :: rest => let! _ := body item in for_each rest body
  end.

Definition os_path_exists_results : io bool :=
  fun w => (w, inr (bool_decide (results w <> None))).

Definition rmtree_results : io unit :=
  fun w => (World (history w) None, inr tt).

Definition os_mkdir_results : io unit :=
  fun w => match results w with
           | None => (World (history w) (Some (ResultsDir None [])), inr tt)
           | Some _ => (w, inl (OtherError "FileExistsError"))
           end.

(** [os.path("results")]: [os.path] is a module, and calling it raises. *)
Definition os_path (path : string) : io bool :=
  raise (TypeError "'module' object is not callable").

Definition main : io unit :=
  let! args := argument_parser in
  let! _config := load_config (arg_project args) "" in
  let! repositories :=
    match arg_repositories args with
    | None | Some EmptyString =>
        let! repo_payload := request (GetRepositories (arg_project args)) in
        match body repo_payload with
        | JRepositories names => ret names
        | _ => raise (KeyError "values")
        end
    | Some repositories => ret (split_comma repositories)
    end in
  let is_friday := weekday today =? 4 in
  let _delete_branches_flag := is_friday in
  let! results_exists := os_path_exists_results in
  let! _ := (if results_exists && negb _delete_branches_flag then rmtree_results else ret tt) in
  let! is_dir := os_path "results" in
  let! _ := (if negb is_dir then os_mkdir_results else ret tt) in
  for_each repositories (process_repository (arg_project args) is_friday).

(** How the process ends. *)
Record outcome := Outcome {
  exit_status : Z;
  logged_error : option exn
}.

(** The [__main__] block: an [Exception] is logged and the process exits
    with status 1; a [SystemExit] exits with its own code. *)
Definition program (w : world) : world * outcome :=
  match main w with
  | (w', inr _) => (w', Outcome 0 None)
  | (w', inl (SystemExit code)) => (w', Outcome code None)
  | (w', inl err) => (w', Outcome 1 (Some err))
  end.

(** ** Kinds of requests *)

Definition is_commit_lookup (c : call) : bool :=
  match c with GetCommitStats _ _ _ => true | _ => false end.

Definition is_permission_delete (c : call) : bool :=
  match c with DeleteBranchPermission _ _ _ => true | _ => false end.

Definition is_branch_delete (c : call) : bool :=
  match c with DeleteBranch _ _ _ _ => true | _ => false end.

Definition is_delete (c : call) : bool :=
  is_permission_delete c || is_branch_delete c.

Definition count_calls (kind : call -> bool) (calls : list call) : nat :=
  length (List.filter kind calls).

(** The requests that only the processing of a repository sends: all of
    them but the listing of the repositories. *)
Definition is_repository_request (c : call) : bool :=
  match c with GetRepositories _ => false | _ => true end.

(** The worlds the tasks of a list leave one after the other, whatever
    each of them returns. *)
Definition run_all {A} (tasks : list (io A)) (w : world) : world :=
  fold_left (fun w task => fst (task w)) tasks w.

(** No row of [rows] is named by [excluded]. *)
Definition rows_exclude (excluded : list string) (rows : list row) : Prop :=
  forall r, r ∈ rows -> row_name r ∉ excluded.

(** No row of the state file, if there is one, is named by [excluded]. *)
Definition store_excludes (excluded : list string) (w : world) : Prop :=
  forall dir (data : gmap string (list row)) repository rows,
    results w = Some dir -> state_json dir = Some data ->
    data !! repository = Some rows -> rows_exclude excluded rows.

(** Every request in [calls], sent in this order from the history [h], got
    an answer that [ok] accepts. *)
Definition each_answer (ok : call -> response -> Prop) (h calls : list call) : Prop :=
  forall pre c post, calls = pre ++ c :: post -> ok c (bitbucket (h ++ pre) c).

(** Every request in [calls] was answered with the status [code]. *)
Definition answered (h calls : list call) (code : Z) : Prop :=
  each_answer (fun _ r => status_code r = code) h calls.

(** * Properties *)

Arguments request _ /.
Arguments ret {_} _ _ /.
Arguments raise {_} _ _ /.
Arguments lift {_} _ _ /.
Arguments bind {_ _} _ _ _ /.

(** The two cases of a timestamp: in the range of [datetime] or not. *)
Ltac case_range :=
  match goal with
  | |- context [datetime_range ?ts] => destruct (datetime_range ts) eqn:?
  | H : context [datetime_range ?ts] |- _ => destruct (datetime_range ts) eqn:?
  end.

(** ** The classifier *)

Lemma get_last_commit_date_answer cfg commit_id w ts :
  body (bitbucket (history w) (GetCommitStats (project cfg) (repository cfg) commit_id))
    = JCommit ts ->
  get_last_commit_date cfg commit_id w
    = (World (history w ++ [GetCommitStats (project cfg) (repository cfg) commit_id]) (results w),
       if datetime_range ts then inr (utc_day ts)
       else inl (OtherError "utcfromtimestamp: timestamp out of range")).
Proof.
  intros Hbody. unfold get_last_commit_date. simpl. rewrite Hbody.
  destruct (datetime_range ts); reflexivity.
Qed.

Lemma filter_branches_row cfg b w threshold ts :
  displayId b ∉ branches_to_exclude cfg ->
  get_threshold (displayId b) cfg = inr threshold ->
  body (bitbucket (history w)
          (GetCommitStats (project cfg) (repository cfg) (latestCommit b))) = JCommit ts ->
  datetime_range ts = true ->
  filter_branches cfg b w
    = (World (history w ++ [GetCommitStats (project cfg) (repository cfg) (latestCommit b)])
         (results w),
       inr (Some (Row (displayId b) (latestCommit b) (today - utc_day ts)
                    (if today - utc_day ts <=? threshold
                     then RETAINED else MARKED_FOR_DELETION)))).
Proof.
  intros Hex Hthr Hbody Hrange. unfold filter_branches.
  rewrite bool_decide_eq_false_2 by assumption. simpl.
  rewrite Hthr. rewrite (get_last_commit_date_answer _ _ _ _ Hbody), Hrange. reflexivity.
Qed.

(** A row of the classifier comes from a lookup that was answered with a
    timestamp in the range of [datetime]. *)
Lemma filter_branches_some_inv cfg b w w' r :
  filter_branches cfg b w = (w', inr (Some r)) ->
(displayId b ∉ branches_to_exclude cfg) /\
  exists threshold ts,
    get_threshold (displayId b) cfg = inr threshold /\
    body (bitbucket (history w)
            (GetCommitStats (project cfg) (repository cfg) (latestCommit b))) = JCommit ts /\
    datetime_range ts = true /\
    r = Row (displayId b) (latestCommit b) (today - utc_day ts)
          (if today - utc_day ts <=? threshold then RETAINED else MARKED_FOR_DELETION).
Proof.
  unfold filter_branches.
  destruct (bool_decide (displayId b ∈ branches_to_exclude cfg)) eqn:Hex; simpl;
    [discriminate|].
  apply bool_decide_eq_false in Hex.
  destruct (get_threshold (displayId b) cfg) as [e|threshold]; simpl; [discriminate|].
  unfold get_last_commit_date. simpl.
  destruct (body (bitbucket (history w) _)) as [| |ts| |]; simpl; try discriminate.
  destruct (datetime_range ts) eqn:Hrange; simpl; [|discriminate].
  intros [= _ <-]. split; [exact Hex|]. exists threshold, ts. auto.
Qed.

(** C4. Every row of the classifier has the status RETAINED when its
    inactivity is at most the threshold of the branch and MARKED FOR DELETION
    when it is greater; at inactivity equal to the threshold it is RETAINED.
    A branch that is not excluded, whose commit lookup answers with a
    timestamp that [datetime] converts, gets such a row, with the inactivity
    of today against the day of the commit. *)
Theorem filter_branches_disposition cfg b w threshold :
  get_threshold (displayId b) cfg = inr threshold ->
  (forall w' r,
     filter_branches cfg b w = (w', inr (Some r)) ->
     (row_delta r <= threshold -> row_status r = RETAINED) /\
     (row_delta r > threshold -> row_status r = MARKED_FOR_DELETION) /\
     (row_delta r = threshold -> row_status r = RETAINED)) /\
  (forall ts,
     displayId b ∉ branches_to_exclude cfg ->
     body (bitbucket (history w)
             (GetCommitStats (project cfg) (repository cfg) (latestCommit b))) = JCommit ts ->
     datetime_range ts = true ->
     exists w' r,
       filter_branches cfg b w = (w', inr (Some r)) /\
       row_name r = displayId b /\
       row_delta r = today - utc_day ts).
Proof.
  intros Hthr. split.
  - intros w' r Hrow.
    destruct (filter_branches_some_inv _ _ _ _ _ Hrow)
      as (_ & threshold' & ts & Hthr' & _ & _ & ->).
    rewrite Hthr in Hthr'. injection Hthr' as <-. simpl. repeat split.
    + intros Hle. apply Z.leb_le in Hle. rewrite Hle. reflexivity.
    + intros Hgt. destruct (Z.leb_spec (today - utc_day ts) threshold);
        [lia | reflexivity].
    + intros Heq. rewrite Heq, Z.leb_refl. reflexivity.
  - intros ts Hex Hbody Hrange. eexists _, _.
    split; [apply (filter_branches_row _ _ _ _ _ Hex Hthr Hbody Hrange)|].
    simpl. auto.
Qed.

(** C5, as the code has it. For a branch that is not excluded, whose
    threshold resolves and whose lookup answers with a timestamp: when
    [datetime] converts the timestamp, the inactivity of the row is the
    difference in days between today and the day of the last commit; it is
    non-negative exactly when that day is not after today, and for a commit
    dated after today it is the negative difference, with which the row is
    still returned; when [datetime] does not convert the timestamp, as for a
    commit dated in the year 10000, the classification raises. *)
Theorem filter_branches_inactivity cfg b w threshold ts :
  displayId b ∉ branches_to_exclude cfg ->
  get_threshold (displayId b) cfg = inr threshold ->
  body (bitbucket (history w)
          (GetCommitStats (project cfg) (repository cfg) (latestCommit b))) = JCommit ts ->
  (datetime_range ts = true ->
   exists w' r,
     filter_branches cfg b w = (w', inr (Some r)) /\
     row_delta r = today - utc_day ts /\
     (0 <= row_delta r <-> utc_day ts <= today) /\
     (today < utc_day ts -> row_delta r < 0)) /\
  (datetime_range ts = false ->
   exists w' e, filter_branches cfg b w = (w', inl e)).
Proof.
  intros Hex Hthr Hbody. split.
  - intros Hrange. eexists _, _.
    split; [apply (filter_branches_row _ _ _ _ _ Hex Hthr Hbody Hrange)|].
    simpl. repeat split; lia.
  - intros Hrange. unfold filter_branches.
    rewrite bool_decide_eq_false_2 by assumption. simpl.
    rewrite Hthr. simpl. rewrite (get_last_commit_date_answer _ _ _ _ Hbody), Hrange.
    eauto.
Qed.

(** ** The state store *)

Lemma write_to_json_no_directory repository rows w :
  results w = None ->
  write_to_json repository rows w = (w, inl (FileNotFoundError "results/state.json")).
Proof.
  intros Hnone. unfold write_to_json, read_from_json, dump_state. simpl.
  rewrite Hnone. reflexivity.
Qed.

Lemma write_to_json_first repository rows w dir :
  results w = Some dir -> state_json dir = None ->
  write_to_json repository rows w
    = (World (history w) (Some (ResultsDir (Some {[repository := rows]}) (purging_log dir))),
       inr tt).
Proof.
  intros Hdir Hfile. unfold write_to_json, read_from_json, dump_state. simpl.
  rewrite Hdir, Hfile. reflexivity.
Qed.

Lemma write_to_json_replace repository rows w dir (data : gmap string (list row)) :
  results w = Some dir -> state_json dir = Some data ->
  (data !! repository = None \/
   exists old, data !! repository = Some old /\ length old <> length rows) ->
  write_to_json repository rows w
    = (World (history w)
         (Some (ResultsDir (Some (<[repository := rows]> data)) (purging_log dir))),
       inr tt).
Proof.
  intros Hdir Hfile Hcase. unfold write_to_json, read_from_json, dump_state. simpl.
  rewrite Hdir, Hfile.
  destruct Hcase as [Habsent | (old & Hold & Hlen)].
  - rewrite Habsent. rewrite bool_decide_eq_true_2 by reflexivity. reflexivity.
  - rewrite Hold. cbn [default from_option id]. apply Nat.eqb_neq in Hlen. rewrite Hlen.
    cbn [negb]. rewrite orb_true_r. reflexivity.
Qed.

Lemma write_to_json_keep repository rows w dir (data : gmap string (list row)) old :
  results w = Some dir -> state_json dir = Some data ->
  data !! repository = Some old -> length old = length rows ->
  write_to_json repository rows w
    = (World (history w) (Some (ResultsDir (Some data) (purging_log dir))), inr tt).
Proof.
  intros Hdir Hfile Hold Hlen. unfold write_to_json, read_from_json, dump_state. simpl.
  rewrite Hdir, Hfile, Hold. cbn [default from_option id].
  rewrite bool_decide_eq_false_2 by discriminate.
  apply Nat.eqb_eq in Hlen. rewrite Hlen. reflexivity.
Qed.

(** After a merge the entry of the repository has the length of the rows
    that were merged, whether it was replaced or kept. *)
Lemma write_to_json_entry_length repository rows w dir :
  results w = Some dir ->
  exists data,
    write_to_json repository rows w
      = (World (history w) (Some (ResultsDir (Some data) (purging_log dir))), inr tt) /\
    exists entry, data !! repository = Some entry /\ length entry = length rows.
Proof.
  intros Hdir. destruct (state_json dir) as [data|] eqn:Hfile.
  - destruct (data !! repository) as [old|] eqn:Hold.
    + destruct (Nat.eq_dec (length old) (length rows)) as [Hlen|Hlen].
      * exists data. split; [eapply write_to_json_keep; eassumption|]. eauto.
      * exists (<[repository := rows]> data).
        split; [apply write_to_json_replace; eauto|].
        exists rows. split; [apply lookup_insert_eq | reflexivity].
    + exists (<[repository := rows]> data).
      split; [apply write_to_json_replace; eauto|].
      exists rows. split; [apply lookup_insert_eq | reflexivity].
  - exists {[repository := rows]}.
    split; [apply write_to_json_first; assumption|].
    exists rows. split; [apply lookup_singleton_eq | reflexivity].
Qed.

(** C7. The merge replaces the entry of the repository exactly when the
    repository is absent from the stored document (or there is no document)
    or the stored entry has another length, and keeps the document as it is
    otherwise; so a second merge of rows of the same length for the same
    repository leaves the world of the first merge unchanged. *)
Theorem write_to_json_idempotent repository rows1 rows2 w :
  length rows1 = length rows2 ->
  (forall dir, results w = Some dir ->
     exists data',
       write_to_json repository rows1 w
         = (World (history w) (Some (ResultsDir (Some data') (purging_log dir))), inr tt) /\
       match state_json dir with
       | None => data' = {[repository := rows1]}
       | Some data =>
           match data !! repository with
           | None => data' = <[repository := rows1]> data
           | Some old =>
               (length old <> length rows1 -> data' = <[repository := rows1]> data) /\
               (length old = length rows1 -> data' = data)
           end
       end) /\
  write_to_json repository rows2 (fst (write_to_json repository rows1 w))
    = (fst (write_to_json repository rows1 w), snd (write_to_json repository rows1 w)).
Proof.
  intros Hlen. split.
  - intros dir Hdir. destruct (state_json dir) as [data|] eqn:Hfile.
    + destruct (data !! repository) as [old|] eqn:Hold.
      * destruct (Nat.eq_dec (length old) (length rows1)) as [Heq|Hne].
        -- exists data. split; [eapply write_to_json_keep; eassumption|].
           split; [intros; contradiction | reflexivity].
        -- exists (<[repository := rows1]> data).
           split; [apply write_to_json_replace; eauto|].
           split; [reflexivity | intros; contradiction].
      * exists (<[repository := rows1]> data).
        split; [apply write_to_json_replace; eauto | reflexivity].
    + exists {[repository := rows1]}.
      split; [apply write_to_json_first; assumption | reflexivity].
  - destruct (results w) as [dir|] eqn:Hdir.
    + destruct (write_to_json_entry_length repository rows1 w dir Hdir)
        as (data & Hrun & entry & Hentry & Hlength).
      rewrite Hrun. simpl.
      erewrite write_to_json_keep
        with (data := data) (old := entry)
             (dir := ResultsDir (Some data) (purging_log dir));
        [reflexivity | reflexivity | reflexivity | exact Hentry | congruence].
    + rewrite (write_to_json_no_directory _ rows1 _ Hdir). simpl.
      apply write_to_json_no_directory. assumption.
Qed.

(** ** The reconciler *)

Lemma each_answer_nil ok h : each_answer ok h [].
Proof. intros pre c post Heq. destruct pre; discriminate. Qed.

Lemma each_answer_cons ok h c calls :
  ok c (bitbucket h c) ->
  each_answer ok (h ++ [c]) calls ->
  each_answer ok h (c :: calls).
Proof.
  intros Hc Hrest pre c' post Heq. destruct pre as [|c0 pre]; simpl in Heq.
  - injection Heq as -> _. rewrite app_nil_r. exact Hc.
  - injection Heq as -> Heq. specialize (Hrest pre c' post Heq).
    rewrite <- app_assoc in Hrest. exact Hrest.
Qed.

Lemma each_answer_app ok h calls1 calls2 :
  each_answer ok h calls1 ->
  each_answer ok (h ++ calls1) calls2 ->
  each_answer ok h (calls1 ++ calls2).
Proof.
  revert h. induction calls1 as [|c rest IH]; intros h H1 H2.
  - rewrite app_nil_r in H2. exact H2.
  - simpl. apply each_answer_cons.
    + specialize (H1 [] c rest eq_refl). rewrite app_nil_r in H1. exact H1.
    + apply IH.
      * intros pre c' post Heq. specialize (H1 (c :: pre) c' post).
        rewrite <- app_assoc. apply H1. rewrite Heq. reflexivity.
      * rewrite <- app_assoc. exact H2.
Qed.

Lemma each_answer_weaken (ok ok' : call -> response -> Prop) h calls :
  (forall c r, c ∈ calls -> ok c r -> ok' c r) ->
  each_answer ok h calls -> each_answer ok' h calls.
Proof.
  intros Himp Hall pre c post Heq. apply Himp; [|apply (Hall pre c post Heq)].
  rewrite Heq. apply elem_of_app. right. apply elem_of_cons. left. reflexivity.
Qed.

Lemma each_answer_kind (ok : call -> response -> Prop) h calls :
  (forall c r, c ∈ calls -> ok c r) -> each_answer ok h calls.
Proof.
  intros Hall pre c post Heq. apply Hall.
  rewrite Heq. apply elem_of_app. right. apply elem_of_cons. left. reflexivity.
Qed.

Lemma reconcile_delta_calls cfg branch_info branches delta w :
  exists lookups,
    history (fst (reconcile_delta cfg branch_info branches delta w)) = history w ++ lookups /\
    results (fst (reconcile_delta cfg branch_info branches delta w)) = results w /\
    forallb is_commit_lookup lookups = true.
Proof.
  revert delta w. induction branches as [|_b rest IH]; intros delta w; simpl.
  - exists []. rewrite app_nil_r. auto.
  - destruct (String.eqb (displayId _b) (row_name branch_info)); [|apply IH].
    destruct (String.eqb (latestCommit _b) (row_commit branch_info)); [apply IH|].
    unfold get_last_commit_date. simpl.
    destruct (body (bitbucket (history w) _)) eqn:Hbody; simpl;
      try case_range; simpl; try solve [eexists [_]; simpl; auto].
    match goal with
    | |- context [reconcile_delta _ _ _ ?d ?w1] =>
        destruct (IH d w1) as (lookups & Hh & Hr & Hall)
    end.
    eexists (_ :: lookups). rewrite Hh, Hr. simpl. rewrite <- app_assoc. auto.
Qed.

Lemma reconcile_delta_no_match cfg branch_info branches delta w :
  Forall (fun b => displayId b <> row_name branch_info) branches ->
  reconcile_delta cfg branch_info branches delta w = (w, inr delta).
Proof.
  intros Hall. revert delta. induction Hall as [|_b rest Hneq _ IH]; intros delta; simpl.
  - reflexivity.
  - apply String.eqb_neq in Hneq. rewrite Hneq. apply IH.
Qed.

(** The live list holds the branch once: the loop is one step on its
    entry. *)
Lemma reconcile_delta_unique cfg branch_info branches b delta w :
  NoDup (map displayId branches) ->
  b ∈ branches ->
  displayId b = row_name branch_info ->
  reconcile_delta cfg branch_info branches delta w =
    if String.eqb (latestCommit b) (row_commit branch_info)
    then (w, inr (Some (row_delta branch_info)))
    else match get_last_commit_date cfg (latestCommit b) w with
         | (w', inl e) => (w', inl e)
         | (w', inr last_commit_date) => (w', inr (Some (today - last_commit_date)))
         end.
Proof.
  intros Hnodup Hin Hname. revert delta.
  induction branches as [|_b rest IH]; intros delta.
  - inversion Hin.
  - simpl in Hnodup. apply NoDup_cons in Hnodup as [Hfresh Hnodup].
    assert (Hrest : forall x, x ∈ rest -> displayId x <> displayId _b).
    { intros x Hx Heq. apply Hfresh. rewrite <- Heq.
      apply list_elem_of_fmap. exists x. auto. }
    apply elem_of_cons in Hin as [-> | Hin].
    + clear IH. cbn [reconcile_delta]. unfold bind. rewrite Hname, String.eqb_refl.
      assert (Hnone : Forall (fun x => displayId x <> row_name branch_info) rest).
      { apply Forall_forall. intros x Hx. rewrite <- Hname. apply Hrest. exact Hx. }
      destruct (String.eqb (latestCommit _b) (row_commit branch_info)).
      * apply reconcile_delta_no_match. exact Hnone.
      * destruct (get_last_commit_date cfg (latestCommit _b) w) as [w' [e|d]]; simpl.
        -- reflexivity.
        -- apply reconcile_delta_no_match. exact Hnone.
    + simpl. assert (Hneq : displayId _b <> row_name branch_info).
      { rewrite <- Hname. intros Heq. apply (Hrest b Hin). symmetry. exact Heq. }
      apply String.eqb_neq in Hneq. rewrite Hneq. apply IH; assumption.
Qed.

Lemma delete_matching_permissions_calls cfg branch_name values w :
  exists deletes,
    history (fst (delete_matching_permissions cfg branch_name values w))
      = history w ++ deletes /\
    results (fst (delete_matching_permissions cfg branch_name values w)) = results w /\
    forallb is_permission_delete deletes = true /\
    (forall u, snd (delete_matching_permissions cfg branch_name values w) = inr u ->
       answered (history w) deletes 204).
Proof.
  revert w. induction values as [|i rest IH]; intros w; simpl.
  - exists []. rewrite app_nil_r. repeat split; auto. intros u _. apply each_answer_nil.
  - destruct (String.eqb branch_name (matcher_displayId i)); [|apply IH].
    unfold bind. simpl.
    set (c := DeleteBranchPermission (project cfg) (repository cfg) (restriction_id i)).
    destruct (status_code (bitbucket (history w) c) =? 204) eqn:Hcode; simpl.
    + match goal with
      | |- context [delete_matching_permissions _ _ _ ?w1] =>
          destruct (IH w1) as (deletes & Hh & Hr & Hall & Hok)
      end.
      eexists (_ :: deletes). rewrite Hh, Hr. simpl. rewrite <- app_assoc.
      repeat split; auto.
      intros u Hu. apply each_answer_cons; [apply Z.eqb_eq; exact Hcode | eapply Hok; eauto].
    + eexists [_]. simpl. repeat split; auto. intros u Hu. discriminate.
Qed.

Lemma delete_branch_permissions_calls cfg branch_name w :
  let listing := GetBranchPermissions (project cfg) (repository cfg) in
  exists deletes,
    history (fst (delete_branch_permissions cfg branch_name w))
      = history w ++ listing :: deletes /\
    results (fst (delete_branch_permissions cfg branch_name w)) = results w /\
    forallb is_permission_delete deletes = true /\
    (forall u, snd (delete_branch_permissions cfg branch_name w) = inr u ->
       status_code (bitbucket (history w) listing) = 200 /\
       answered (history w ++ [listing]) deletes 204).
Proof.
  intros listing. unfold delete_branch_permissions. simpl. fold listing.
  destruct (status_code (bitbucket (history w) listing) =? 200) eqn:Hcode; simpl.
  - destruct (body (bitbucket (history w) listing)) eqn:Hbody; simpl;
      try solve [exists []; repeat split; auto; intros; discriminate].
    match goal with
    | |- context [delete_matching_permissions _ _ ?vs ?w1] =>
        destruct (delete_matching_permissions_calls cfg branch_name vs w1)
          as (deletes & Hh & Hr & Hall & Hok)
    end.
    exists deletes. rewrite Hh, Hr. simpl. rewrite <- app_assoc.
    repeat split; auto.
    + apply Z.eqb_eq. exact Hcode.
    + eapply Hok. eassumption.
  - exists []. repeat split; auto; intros; discriminate.
Qed.

(** [process_branches_for_deletion], one step at a time. *)
Lemma process_branches_for_deletion_unfold cfg branch_info branches w :
  let name := row_name branch_info in
  let commit := row_commit branch_info in
  let deletion := DeleteBranch (project cfg) (repository cfg) name commit in
  process_branches_for_deletion cfg branch_info branches w =
    match reconcile_delta cfg branch_info branches None w with
    | (w1, inl e) => (w1, inl e)
    | (w1, inr delta) =>
        match get_threshold name cfg with
        | inl e => (w1, inl e)
        | inr threshold =>
            match delta with
            | None => (w1, inl (UnboundLocalError "delta"))
            | Some delta =>
                if (delta >? threshold) && String.eqb (row_status branch_info) MARKED_FOR_DELETION
                then
                  match delete_branch_permissions cfg name w1 with
                  | (w2, inl e) => (w2, inl e)
                  | (w2, inr _) =>
                      (World (history w2 ++ [deletion]) (results w2),
                       if status_code (bitbucket (history w2) deletion) =? 204
                       then inr (Row name commit delta DELETED)
                       else inl (TypeError "string indices must be integers"))
                  end
                else (w1, inr (Row name commit delta (row_status branch_info)))
            end
        end
    end.
Proof.
  intros name commit deletion. unfold process_branches_for_deletion, bind.
  destruct (reconcile_delta cfg branch_info branches None w) as [w1 [e|delta]];
    [reflexivity|].
  fold name. simpl. destruct (get_threshold name cfg) as [e|threshold]; [reflexivity|].
  destruct delta as [delta|]; [|reflexivity].
  destruct ((delta >? threshold) && String.eqb (row_status branch_info) MARKED_FOR_DELETION);
    [|reflexivity].
  destruct (delete_branch_permissions cfg name w1) as [w2 [e|u]]; [reflexivity|].
  unfold delete_branch, bind. simpl. fold commit. fold deletion.
  destruct (status_code (bitbucket (history w2) deletion) =? 204); reflexivity.
Qed.

Lemma guard_true delta threshold status :
  (delta >? threshold) && String.eqb status MARKED_FOR_DELETION = true <->
  delta > threshold /\ status = MARKED_FOR_DELETION.
Proof.
  rewrite andb_true_iff, String.eqb_eq, Z.gtb_gt. reflexivity.
Qed.

Lemma forallb_not_delete_lookups calls :
  forallb is_commit_lookup calls = true ->
  forallb (fun c => negb (is_delete c)) calls = true.
Proof.
  intros Hall. rewrite forallb_forall in *. intros c Hc. specialize (Hall c Hc).
  destruct c; simpl in *; congruence.
Qed.

Lemma reconcile_delta_found cfg branch_info branches w w1 delta :
  reconcile_delta cfg branch_info branches None w = (w1, inr (Some delta)) ->
  exists b, b ∈ branches /\ displayId b = row_name branch_info.
Proof.
  intros Hrun.
  destruct (decide (Forall (fun b => displayId b <> row_name branch_info) branches))
    as [Hnone|Hsome].
  - rewrite (reconcile_delta_no_match _ _ _ _ _ Hnone) in Hrun. discriminate.
  - apply not_Forall_Exists in Hsome; [|intros b; apply _].
    apply Exists_exists in Hsome as (b & Hin & Hb). exists b. split; [exact Hin|].
    destruct (decide (displayId b = row_name branch_info)); [assumption | contradiction].
Qed.

(** C1. A delete request is sent only when the inactivity the loop
    arrived at is greater than the threshold and the stored status is
    MARKED FOR DELETION; when the loop arrived at an inactivity and the
    threshold resolves but that condition fails, the row keeps the stored
    status and no delete request is sent. *)
Theorem deletion_requires_stale_and_marked cfg branch_info branches w :
  (forall calls,
     history (fst (process_branches_for_deletion cfg branch_info branches w))
       = history w ++ calls ->
     existsb is_delete calls = true ->
     exists w1 delta threshold,
       reconcile_delta cfg branch_info branches None w = (w1, inr (Some delta)) /\
       get_threshold (row_name branch_info) cfg = inr threshold /\
       delta > threshold /\ row_status branch_info = MARKED_FOR_DELETION) /\
  (forall w1 delta threshold,
     reconcile_delta cfg branch_info branches None w = (w1, inr (Some delta)) ->
     get_threshold (row_name branch_info) cfg = inr threshold ->
     ~ (delta > threshold /\ row_status branch_info = MARKED_FOR_DELETION) ->
     process_branches_for_deletion cfg branch_info branches w
       = (w1, inr (Row (row_name branch_info) (row_commit branch_info) delta
                     (row_status branch_info))) /\
     exists calls, history w1 = history w ++ calls /\
                   forallb (fun c => negb (is_delete c)) calls = true).
Proof.
  pose proof (reconcile_delta_calls cfg branch_info branches None w)
    as (lookups & Hh & _ & Hlookups).
  pose proof (process_branches_for_deletion_unfold cfg branch_info branches w) as Hrun.
  simpl in Hrun.
  assert (Hnone : forall calls, history w ++ lookups = history w ++ calls ->
                    existsb is_delete calls = true -> False).
  { intros calls Heq Hex. apply app_inv_head in Heq. subst calls.
    apply forallb_not_delete_lookups in Hlookups.
    apply existsb_exists in Hex as (c & Hc & Hdel).
    rewrite forallb_forall in Hlookups. specialize (Hlookups c Hc).
    rewrite Hdel in Hlookups. discriminate. }
  destruct (reconcile_delta cfg branch_info branches None w) as [w1 [e|delta]] eqn:Hrec;
    simpl in Hh.
  { split.
    - intros calls Hcalls Hex. rewrite Hrun in Hcalls. simpl in Hcalls.
      rewrite Hh in Hcalls. destruct (Hnone calls Hcalls Hex).
    - intros w1' delta thr Heq. discriminate. }
  destruct (get_threshold (row_name branch_info) cfg) as [e|threshold] eqn:Hthr.
  { split.
    - intros calls Hcalls Hex. rewrite Hrun in Hcalls. simpl in Hcalls.
      rewrite Hh in Hcalls. destruct (Hnone calls Hcalls Hex).
    - intros w1' delta' thr _ Heq. discriminate. }
  destruct delta as [delta|].
  2:{ split.
      - intros calls Hcalls Hex. rewrite Hrun in Hcalls. simpl in Hcalls.
        rewrite Hh in Hcalls. destruct (Hnone calls Hcalls Hex).
      - intros w1' delta' thr Heq. discriminate. }
  destruct ((delta >? threshold) && String.eqb (row_status branch_info) MARKED_FOR_DELETION)
    eqn:Hguard.
  - apply guard_true in Hguard. split.
    + intros calls _ _. exists w1, delta, threshold.
      destruct Hguard as [Hgt Hstatus]. repeat split; assumption.
    + intros w1' delta' thr Heq Hthr' Hnot. injection Heq as <- <-.
      injection Hthr' as <-. contradiction.
  - split.
    + intros calls Hcalls Hex. rewrite Hrun in Hcalls. simpl in Hcalls.
      rewrite Hh in Hcalls. destruct (Hnone calls Hcalls Hex).
    + intros w1' delta' thr Heq Hthr' _. injection Heq as <- <-.
      split; [exact Hrun|]. exists lookups. split; [exact Hh|].
      apply forallb_not_delete_lookups. exact Hlookups.
Qed.

(** C10. When no live branch has the name of the stored row (and the
    threshold of the name resolves), the loop assigns nothing and the
    function raises the UnboundLocalError of [delta] without a request;
    a row is returned only for a name found in the live list. *)
Theorem missing_branch_unbound_delta cfg branch_info branches w :
  (Forall (fun b => displayId b <> row_name branch_info) branches ->
   forall threshold, get_threshold (row_name branch_info) cfg = inr threshold ->
   process_branches_for_deletion cfg branch_info branches w
     = (w, inl (UnboundLocalError "delta"))) /\
  (forall w' r,
     process_branches_for_deletion cfg branch_info branches w = (w', inr r) ->
     exists b, b ∈ branches /\ displayId b = row_name branch_info).
Proof.
  pose proof (process_branches_for_deletion_unfold cfg branch_info branches w) as Hrun.
  simpl in Hrun. split.
  - intros Hnone threshold Hthr. rewrite Hrun.
    rewrite (reconcile_delta_no_match _ _ _ _ _ Hnone), Hthr. reflexivity.
  - intros w' r Hret. rewrite Hrun in Hret.
    destruct (reconcile_delta cfg branch_info branches None w) as [w1 [e|delta]] eqn:Hrec;
      [discriminate|].
    destruct delta as [delta|].
    + eapply reconcile_delta_found. exact Hrec.
    + destruct (get_threshold (row_name branch_info) cfg); discriminate.
Qed.

(** The requests of [process_branches_for_deletion] after its loop: none,
    or the delete sequence, which ends with the branch delete only when
    every request of the permission step was answered with success. *)
Lemma process_branches_for_deletion_tail cfg branch_info branches w :
  let w1 := fst (reconcile_delta cfg branch_info branches None w) in
  let run := process_branches_for_deletion cfg branch_info branches w in
  let listing := GetBranchPermissions (project cfg) (repository cfg) in
  let deletion :=
    DeleteBranch (project cfg) (repository cfg) (row_name branch_info)
      (row_commit branch_info) in
  exists tail,
    history (fst run) = history w1 ++ tail /\
    (tail = [] \/
     exists deletes,
       forallb is_permission_delete deletes = true /\
       ((tail = listing :: deletes /\ exists e, snd run = inl e) \/
        (tail = listing :: deletes ++ [deletion] /\
         status_code (bitbucket (history w1) listing) = 200 /\
         answered (history w1 ++ [listing]) deletes 204))).
Proof.
  intros w1 run listing deletion. subst run.
  rewrite (process_branches_for_deletion_unfold cfg branch_info branches w). simpl.
  subst w1.
  destruct (reconcile_delta cfg branch_info branches None w) as [w1 [e|delta]]; simpl.
  { exists []. rewrite app_nil_r. auto. }
  destruct (get_threshold (row_name branch_info) cfg) as [e|threshold]; simpl.
  { exists []. rewrite app_nil_r. auto. }
  destruct delta as [delta|]; simpl.
  2:{ exists []. rewrite app_nil_r. auto. }
  destruct ((delta >? threshold) && String.eqb (row_status branch_info) MARKED_FOR_DELETION);
    simpl.
  2:{ exists []. rewrite app_nil_r. auto. }
  pose proof (delete_branch_permissions_calls cfg (row_name branch_info) w1)
    as (deletes & Hh & _ & Hall & Hok).
  fold listing in Hh, Hok.
  destruct (delete_branch_permissions cfg (row_name branch_info) w1) as [w2 [e|u]];
    simpl in *.
  - exists (listing :: deletes). split; [exact Hh|]. right. exists deletes. eauto.
  - exists (listing :: deletes ++ [deletion]). fold deletion. rewrite Hh.
    split; [rewrite <- app_assoc; reflexivity|].
    right. exists deletes. split; [exact Hall|]. right.
    destruct (Hok u eq_refl) as [Hcode Hanswered]. auto.
Qed.

Lemma count_calls_app kind calls1 calls2 :
  count_calls kind (calls1 ++ calls2) = (count_calls kind calls1 + count_calls kind calls2)%nat.
Proof. unfold count_calls. rewrite List.filter_app, length_app. reflexivity. Qed.

Lemma count_lookups_permission_deletes deletes :
  forallb is_permission_delete deletes = true ->
  count_calls is_commit_lookup deletes = 0%nat.
Proof.
  unfold count_calls. induction deletes as [|c rest IH]; simpl; [reflexivity|].
  intros Hall. apply andb_true_iff in Hall as [Hc Hrest].
  destruct c; simpl in *; try discriminate. auto.
Qed.

(** C2. With the name of the stored row held once by the live list: when the
    live commit is the stored one, the loop keeps the stored inactivity and
    sends no request; when it differs, the loop sends one commit lookup, for
    the live commit, and a lookup answered with a timestamp that [datetime]
    converts gives the inactivity against today (with another timestamp
    the loop raises). Of all the requests of the task, the commit lookups
    number one when the commit changed and none when it did not. *)
Theorem commit_lookup_iff_commit_changed cfg branch_info branches b w :
  NoDup (map displayId branches) ->
  b ∈ branches ->
  displayId b = row_name branch_info ->
  let lookup := GetCommitStats (project cfg) (repository cfg) (latestCommit b) in
  let loop := reconcile_delta cfg branch_info branches None w in
  (latestCommit b = row_commit branch_info ->
     loop = (w, inr (Some (row_delta branch_info)))) /\
  (latestCommit b <> row_commit branch_info ->
     fst loop = World (history w ++ [lookup]) (results w) /\
     forall ts, body (bitbucket (history w) lookup) = JCommit ts ->
                (datetime_range ts = true ->
                 snd loop = inr (Some (today - utc_day ts))) /\
                (datetime_range ts = false -> exists e, snd loop = inl e)) /\
  (forall calls,
     history (fst (process_branches_for_deletion cfg branch_info branches w))
       = history w ++ calls ->
     count_calls is_commit_lookup calls
       = (if String.eqb (latestCommit b) (row_commit branch_info) then 0 else 1)%nat /\
     (existsb is_commit_lookup calls = true <-> latestCommit b <> row_commit branch_info)).
Proof.
  intros Hnodup Hin Hname lookup loop.
  pose proof (reconcile_delta_unique cfg branch_info branches b None w Hnodup Hin Hname)
    as Hloop.
  fold loop in Hloop.
  assert (Hsame : latestCommit b = row_commit branch_info ->
                  loop = (w, inr (Some (row_delta branch_info)))).
  { intros Heq. apply String.eqb_eq in Heq. rewrite Heq in Hloop. exact Hloop. }
  assert (Hchanged : latestCommit b <> row_commit branch_info ->
                     fst loop = World (history w ++ [lookup]) (results w) /\
                     forall ts, body (bitbucket (history w) lookup) = JCommit ts ->
                                (datetime_range ts = true ->
                                 snd loop = inr (Some (today - utc_day ts))) /\
                                (datetime_range ts = false ->
                                 exists e, snd loop = inl e)).
  { intros Hneq. apply String.eqb_neq in Hneq. rewrite Hneq in Hloop.
    rewrite Hloop. unfold get_last_commit_date. simpl. fold lookup. split.
    - destruct (body (bitbucket (history w) lookup)); try reflexivity.
      case_range; reflexivity.
    - intros ts Hts. rewrite Hts.
      split; intros Hrange; rewrite Hrange; simpl; eauto. }
  split; [exact Hsame|]. split; [exact Hchanged|].
  intros calls Hcalls.
  pose proof (process_branches_for_deletion_tail cfg branch_info branches w)
    as (tail & Hh & Htail).
  simpl in Hh, Htail. fold loop in Hh, Htail. rewrite Hh in Hcalls.
  assert (Hzero : count_calls is_commit_lookup tail = 0%nat).
  { destruct Htail as [-> | (deletes & Hall & [[-> _] | [-> _]])].
    - reflexivity.
    - change (_ :: deletes) with ([GetBranchPermissions (project cfg) (repository cfg)]
                                   ++ deletes).
      rewrite count_calls_app, (count_lookups_permission_deletes _ Hall). reflexivity.
    - change (_ :: deletes ++ ?l) with ([GetBranchPermissions (project cfg) (repository cfg)]
                                         ++ deletes ++ l).
      rewrite !count_calls_app, (count_lookups_permission_deletes _ Hall). reflexivity. }
  assert (Hcount : count_calls is_commit_lookup calls
                   = (if String.eqb (latestCommit b) (row_commit branch_info)
                      then 0 else 1)%nat).
  { destruct (String.eqb_spec (latestCommit b) (row_commit branch_info)) as [Heq|Hneq].
    - rewrite (Hsame Heq) in Hcalls. simpl in Hcalls. apply app_inv_head in Hcalls.
      subst calls. exact Hzero.
    - destruct (Hchanged Hneq) as [Hw1 _]. rewrite Hw1 in Hcalls. simpl in Hcalls.
      rewrite <- app_assoc in Hcalls. apply app_inv_head in Hcalls. subst calls.
      rewrite count_calls_app, Hzero. reflexivity. }
  split; [exact Hcount|].
  assert (Hex : existsb is_commit_lookup calls = true
                <-> (0 < count_calls is_commit_lookup calls)%nat).
  { unfold count_calls. clear. induction calls as [|c rest IH]; simpl.
    - split; [discriminate | lia].
    - destruct (is_commit_lookup c); simpl; [split; [lia | reflexivity] | exact IH]. }
  rewrite Hex, Hcount.
  destruct (String.eqb_spec (latestCommit b) (row_commit branch_info)); split;
    intros; try lia; congruence.
Qed.

Lemma forallb_elem (kind : call -> bool) calls c :
  forallb kind calls = true -> c ∈ calls -> kind c = true.
Proof.
  intros Hall Hc. rewrite forallb_forall in Hall. apply Hall.
  apply list_elem_of_In. exact Hc.
Qed.

Lemma existsb_false_forallb (kind : call -> bool) calls :
  forallb (fun c => negb (kind c)) calls = true -> existsb kind calls = false.
Proof.
  induction calls as [|c rest IH]; simpl; [reflexivity|].
  intros Hall. apply andb_true_iff in Hall as [Hc Hrest].
  apply negb_true_iff in Hc. rewrite Hc. auto.
Qed.

(** Where a request of a kind sits when it closes a list that holds no
    other request of the kind. *)
Lemma last_position (kind : call -> bool) pre c post calls d :
  pre ++ c :: post = calls ++ [d] ->
  kind c = true ->
  forallb (fun x => negb (kind x)) calls = true ->
  pre = calls /\ c = d /\ post = [].
Proof.
  revert pre. induction calls as [|x rest IH]; intros pre Heq Hc Hall.
  - destruct pre as [|y pre]; simpl in Heq.
    + injection Heq as -> <-. auto.
    + injection Heq as _ Heq. destruct pre; discriminate.
  - simpl in Hall. apply andb_true_iff in Hall as [Hx Hrest].
    destruct pre as [|y pre]; simpl in Heq.
    + injection Heq as -> _. rewrite Hc in Hx. discriminate.
    + injection Heq as -> Heq. destruct (IH pre Heq Hc Hrest) as (-> & -> & ->). auto.
Qed.

(** C3. In the requests of one task, a branch delete is the last request
    and comes after the listing of the permissions (hence after every
    permission delete of the task); and when the listing is answered with a
    status other than 200, or a permission delete with a status other than
    204, the task raises and sends no branch delete. *)
Theorem permission_step_precedes_branch_delete cfg branch_info branches w calls :
  let run := process_branches_for_deletion cfg branch_info branches w in
  let listing := GetBranchPermissions (project cfg) (repository cfg) in
  let deletion :=
    DeleteBranch (project cfg) (repository cfg) (row_name branch_info)
      (row_commit branch_info) in
  history (fst run) = history w ++ calls ->
  (forall pre c post,
     calls = pre ++ c :: post -> is_branch_delete c = true ->
     c = deletion /\ post = [] /\ listing ∈ pre /\ existsb is_branch_delete pre = false) /\
  (forall pre c post,
     calls = pre ++ c :: post ->
     (c = listing /\ status_code (bitbucket (history w ++ pre) c) <> 200) \/
     (is_permission_delete c = true /\ status_code (bitbucket (history w ++ pre) c) <> 204) ->
     (exists e, snd run = inl e) /\ existsb is_branch_delete calls = false).
Proof.
  intros run listing deletion Hcalls.
  pose proof (reconcile_delta_calls cfg branch_info branches None w)
    as (lookups & Hh1 & _ & Hlookups).
  pose proof (process_branches_for_deletion_tail cfg branch_info branches w)
    as (tail & Hh & Htail).
  simpl in Hh, Htail. fold run in Hh. fold listing in Htail. fold deletion in Htail.
  rewrite Hh1 in Hh, Htail. rewrite Hh, <- app_assoc in Hcalls.
  apply app_inv_head in Hcalls. subst calls.
  assert (Hnot_lookups : forallb (fun c => negb (is_branch_delete c)) lookups = true).
  { apply forallb_forall. intros c Hc. rewrite forallb_forall in Hlookups.
    specialize (Hlookups c Hc). destruct c; simpl in *; congruence. }
  assert (Hnot_deletes : forall deletes,
            forallb is_permission_delete deletes = true ->
            forallb (fun c => negb (is_branch_delete c)) (lookups ++ listing :: deletes)
              = true).
  { intros deletes Hall. rewrite forallb_app, Hnot_lookups. simpl.
    apply forallb_forall. intros c Hc. rewrite forallb_forall in Hall.
    specialize (Hall c Hc). destruct c; simpl in *; congruence. }
  assert (Hmember : forall (l : list call) pre c post, l = pre ++ c :: post -> c ∈ l).
  { intros l pre c post ->. apply elem_of_app. right. apply elem_of_cons. auto. }
  destruct Htail as [-> | (deletes & Hall & [[-> Herr] | (-> & Hcode & Hanswered)])].
  - rewrite app_nil_r. split.
    + intros pre c post Heq Hc. apply Hmember in Heq.
      apply (forallb_elem _ _ _ Hnot_lookups) in Heq. rewrite Hc in Heq. discriminate.
    + intros pre c post Heq Hbad. apply Hmember in Heq.
      apply (forallb_elem _ _ _ Hlookups) in Heq.
      destruct Hbad as [[-> _] | [Hperm _]]; [discriminate|].
      destruct c; discriminate.
  - split.
    + intros pre c post Heq Hc. apply Hmember in Heq.
      apply (forallb_elem _ _ _ (Hnot_deletes deletes Hall)) in Heq.
      rewrite Hc in Heq. discriminate.
    + intros pre c post _ _. split; [exact Herr|].
      apply existsb_false_forallb. auto.
  - split.
    + intros pre c post Heq Hc.
      change (lookups ++ listing :: deletes ++ [deletion])
        with (lookups ++ (listing :: deletes) ++ [deletion]) in Heq.
      rewrite app_assoc in Heq. symmetry in Heq.
      destruct (last_position is_branch_delete _ _ _ _ _ Heq Hc (Hnot_deletes deletes Hall))
        as (-> & -> & ->).
      repeat split.
      * apply elem_of_app. right. apply elem_of_cons. auto.
      * apply existsb_false_forallb. auto.
    + intros pre c post Heq Hbad. exfalso.
      set (ok := fun (c : call) (r : response) =>
                   (c = listing -> status_code r = 200) /\
                   (is_permission_delete c = true -> status_code r = 204)).
      assert (Hok : each_answer ok (history w) (lookups ++ listing :: deletes ++ [deletion])).
      { apply each_answer_app.
        - apply each_answer_kind. intros x r Hx.
          apply (forallb_elem _ _ _ Hlookups) in Hx.
          split; [intros -> | intros Hp; destruct x]; discriminate.
        - apply each_answer_cons.
          + split; [auto | discriminate].
          + apply each_answer_app.
            * unfold answered in Hanswered.
              eapply each_answer_weaken; [|exact Hanswered].
              intros x r Hx Hr. apply (forallb_elem _ _ _ Hall) in Hx.
              split; [intros ->; discriminate | auto].
            * apply each_answer_cons; [|apply each_answer_nil].
              split; discriminate. }
      destruct (Hok pre c post Heq) as [Hlist Hperm].
      destruct Hbad as [[Hc Hne] | [Hc Hne]]; [apply Hne, Hlist, Hc | apply Hne, Hperm, Hc].
Qed.

(** ** The fan-out *)

Lemma gather_cons {A} (task : io A) rest w :
  gather (task :: rest) w =
    (fst (gather rest (fst (task w))),
     match snd (task w), snd (gather rest (fst (task w))) with
     | inl e, _ => inl e
     | inr _, inl e => inl e
     | inr a, inr l => inr (a :: l)
     end).
Proof.
  simpl. destruct (task w) as [w1 r]. simpl. destruct (gather rest w1) as [w2 rs].
  reflexivity.
Qed.

(** Every task is run, in the order of the list. *)
Lemma gather_runs_all {A} (tasks : list (io A)) w :
  fst (gather tasks w) = run_all tasks w.
Proof.
  revert w. induction tasks as [|task rest IH]; intros w; [reflexivity|].
  rewrite gather_cons. simpl. apply IH.
Qed.

Lemma run_all_app {A} (tasks1 tasks2 : list (io A)) w :
  run_all (tasks1 ++ tasks2) w = run_all tasks2 (run_all tasks1 w).
Proof. unfold run_all. apply fold_left_app. Qed.

(** One task that raises at its turn makes the whole [gather] raise. *)
Lemma gather_raises {A} (pre : list (io A)) (task : io A) (post : list (io A)) w e :
  snd (task (run_all pre w)) = inl e ->
  exists e', snd (gather (pre ++ task :: post) w) = inl e'.
Proof.
  revert w. induction pre as [|t pre IH]; intros w Hfail.
  - simpl in Hfail. rewrite app_nil_l, gather_cons. simpl. rewrite Hfail. eauto.
  - rewrite <- app_comm_cons, gather_cons. simpl.
    destruct (IH (fst (t w)) Hfail) as (e' & He'). rewrite He'.
    destruct (snd (t w)); eauto.
Qed.

Lemma gather_results {A} (tasks : list (io A)) w :
  (forall task w, task ∈ tasks -> results (fst (task w)) = results w) ->
  results (fst (gather tasks w)) = results w.
Proof.
  revert w. induction tasks as [|task rest IH]; intros w Hall; [reflexivity|].
  rewrite gather_cons. simpl. rewrite IH.
  - apply Hall. apply elem_of_cons. auto.
  - intros t w' Ht. apply Hall. apply elem_of_cons. auto.
Qed.

(** ** Excluded branches *)

Lemma filter_branches_excluded cfg b w :
  displayId b ∈ branches_to_exclude cfg ->
  filter_branches cfg b w = (w, inr None).
Proof.
  intros Hex. unfold filter_branches. rewrite bool_decide_eq_true_2 by assumption.
  reflexivity.
Qed.

Lemma filter_branches_results cfg b w :
  results (fst (filter_branches cfg b w)) = results w.
Proof.
  unfold filter_branches. destruct (bool_decide _); simpl; [reflexivity|].
  destruct (get_threshold (displayId b) cfg); simpl; [reflexivity|].
  unfold get_last_commit_date. simpl.
  destruct (body (bitbucket (history w) _)); try reflexivity.
  case_range; reflexivity.
Qed.

Lemma filter_branches_some cfg b w w' r :
  filter_branches cfg b w = (w', inr (Some r)) ->
  row_name r = displayId b /\ displayId b ∉ branches_to_exclude cfg.
Proof.
  unfold filter_branches.
  destruct (bool_decide (displayId b ∈ branches_to_exclude cfg)) eqn:Hex; simpl;
    [discriminate|].
  apply bool_decide_eq_false in Hex.
  destruct (get_threshold (displayId b) cfg); simpl; [discriminate|].
  unfold get_last_commit_date. simpl.
  destruct (body (bitbucket (history w) _)); simpl; try discriminate.
  case_range; simpl; [|discriminate].
  intros Heq. injection Heq as _ <-. auto.
Qed.

Lemma gather_filter_branches_rows cfg values w w' rows :
  gather (map (filter_branches cfg) values) w = (w', inr rows) ->
  rows_exclude (branches_to_exclude cfg) (omap id rows).
Proof.
  revert w w' rows. induction values as [|b rest IH]; intros w w' rows Hrun.
  - injection Hrun as _ <-. intros r Hr. inversion Hr.
  - simpl map in Hrun. rewrite gather_cons in Hrun.
    destruct (filter_branches cfg b w) as [w1 [e|a]] eqn:Hb; simpl in Hrun;
      [discriminate|].
    destruct (gather (map (filter_branches cfg) rest) w1) as [w2 [e|l]] eqn:Hrest;
      simpl in Hrun; [discriminate|].
    injection Hrun as _ <-. specialize (IH w1 w2 l Hrest).
    destruct a as [r0|]; simpl; [|exact IH].
    intros r Hr. apply elem_of_cons in Hr as [-> | Hr]; [|apply IH; exact Hr].
    destruct (filter_branches_some _ _ _ _ _ Hb) as [-> Hnot]. exact Hnot.
Qed.

Lemma write_to_json_store_excludes excluded repository rows w :
  rows_exclude excluded rows ->
  store_excludes excluded w ->
  store_excludes excluded (fst (write_to_json repository rows w)).
Proof.
  intros Hrows Hstore. destruct (results w) as [dir|] eqn:Hdir.
  2:{ rewrite (write_to_json_no_directory _ _ _ Hdir). exact Hstore. }
  assert (Hinsert : forall (data : gmap string (list row)),
            (forall repo rs, data !! repo = Some rs -> rows_exclude excluded rs) ->
            forall repo rs, <[repository := rows]> data !! repo = Some rs ->
                            rows_exclude excluded rs).
  { intros data Hdata repo rs. rewrite lookup_insert. case_decide.
    - intros [= <-]. exact Hrows.
    - apply Hdata. }
  destruct (state_json dir) as [data|] eqn:Hfile.
  - assert (Hdata : forall repo rs, data !! repo = Some rs -> rows_exclude excluded rs).
    { intros repo rs. apply (Hstore dir data repo rs Hdir Hfile). }
    destruct (data !! repository) as [old|] eqn:Hold.
    + destruct (Nat.eq_dec (length old) (length rows)) as [Hlen|Hlen].
      * rewrite (write_to_json_keep _ _ _ _ _ _ Hdir Hfile Hold Hlen).
        intros dir' data' repo rs [= <-] [= <-]. apply Hdata.
      * rewrite (write_to_json_replace _ rows _ _ _ Hdir Hfile) by eauto.
        intros dir' data' repo rs [= <-] [= <-]. apply Hinsert, Hdata.
    + rewrite (write_to_json_replace _ rows _ _ _ Hdir Hfile) by eauto.
      intros dir' data' repo rs [= <-] [= <-]. apply Hinsert, Hdata.
  - rewrite (write_to_json_first _ _ _ _ Hdir Hfile).
    intros dir' data' repo rs [= <-] [= <-].
    rewrite <- insert_empty. apply Hinsert. intros repo' rs'. rewrite lookup_empty.
    discriminate.
Qed.

(** The report leaves the state file alone, whether or not it raises. *)
Lemma generate_report_state_json project repository rows w :
  (results w = None -> results (fst (generate_report project repository rows w)) = None) /\
  (forall dir, results w = Some dir ->
     exists dir', results (fst (generate_report project repository rows w)) = Some dir' /\
                  state_json dir' = state_json dir).
Proof.
  unfold generate_report. destruct rows as [|r rows];
    destruct (results w) as [dir|] eqn:Hdir; simpl.
  - split; [discriminate | intros dir0 [= <-]; eauto].
  - split; [intros _; exact Hdir | discriminate].
  - destruct (opens_log project); simpl;
      (split; [discriminate | intros dir0 [= <-]; eauto]).
  - split; [intros _; exact Hdir | discriminate].
Qed.

Lemma generate_report_store_excludes excluded project repository rows w :
  store_excludes excluded w ->
  store_excludes excluded (fst (generate_report project repository rows w)).
Proof.
  intros Hstore dir' data repo rs Hdir' Hfile.
  destruct (generate_report_state_json project repository rows w) as [Hnone Hsome].
  destruct (results w) as [dir|] eqn:Hdir.
  - destruct (Hsome dir eq_refl) as (dir0 & Hdir0 & Hstate).
    rewrite Hdir0 in Hdir'. injection Hdir' as <-. rewrite Hstate in Hfile.
    apply (Hstore dir data repo rs Hdir Hfile).
  - rewrite (Hnone eq_refl) in Hdir'. discriminate.
Qed.

Lemma store_excludes_results excluded w w' :
  results w' = results w -> store_excludes excluded w -> store_excludes excluded w'.
Proof. intros Heq Hstore dir data repo rs. rewrite Heq. apply Hstore. Qed.

Lemma process_repository_scan_store project repository file w :
  configuration = inr file ->
  let excluded := (["master"; "develop"]%string ++ file_branches_to_exclude file) in
  store_excludes excluded w ->
  store_excludes excluded (fst (process_repository project false repository w)).
Proof.
  intros Hfile excluded Hstore. unfold process_repository.
  destruct (contains "deprecated" repository); [exact Hstore|].
  unfold load_config, bind at 1 2. simpl. rewrite Hfile.
  set (cfg := Config (file_url file) project repository _ (file_thresholds file)).
  set (w0 := World (history w ++ [GetBranches project repository]) (results w)).
  assert (Hstore0 : store_excludes excluded w0) by exact Hstore.
  destruct (body (bitbucket (history w) (GetBranches project repository)));
    try exact Hstore0.
  simpl.
  destruct (gather (map (filter_branches cfg) values) w0) as [w1 [e|rows]] eqn:Hgather.
  - simpl. apply (store_excludes_results _ w0); [|exact Hstore0].
    change w1 with (fst (w1, @inl exn (list (option row)) e)). rewrite <- Hgather.
    apply gather_results. intros task w' Htask.
    apply list_elem_of_fmap in Htask as (b & -> & _). apply filter_branches_results.
  - assert (Hstore1 : store_excludes excluded w1).
    { apply (store_excludes_results _ w0); [|exact Hstore0].
      change w1 with (fst (w1, @inr exn _ rows)). rewrite <- Hgather.
      apply gather_results. intros task w' Htask.
      apply list_elem_of_fmap in Htask as (b & -> & _). apply filter_branches_results. }
    pose proof (gather_filter_branches_rows _ _ _ _ _ Hgather) as Hrows.
    pose proof (write_to_json_store_excludes excluded repository (omap id rows) w1
                  Hrows Hstore1) as Hstore2.
    destruct (write_to_json repository (omap id rows) w1) as [w2 [e|u]]; simpl in *.
    + exact Hstore2.
    + apply generate_report_store_excludes. exact Hstore2.
Qed.

Lemma for_each_scan_store project repositories file w :
  configuration = inr file ->
  let excluded := (["master"; "develop"]%string ++ file_branches_to_exclude file) in
  store_excludes excluded w ->
  store_excludes excluded (fst (for_each repositories (process_repository project false) w)).
Proof.
  intros Hfile excluded. revert w.
  induction repositories as [|repository rest IH]; intros w Hstore; [exact Hstore|].
  simpl. pose proof (process_repository_scan_store project repository file w Hfile Hstore)
    as Hstep.
  destruct (process_repository project false repository w) as [w1 [e|u]]; simpl in *.
  - exact Hstep.
  - apply IH. exact Hstep.
Qed.

(** C8. With the configuration file read, the exclusion list of every
    configuration is [master], [develop] and the names of the file; a branch
    named by it is not classified ([filter_branches] returns [None] and sends
    no request), the rows of a scan hold no such name, and a scan of any
    list of repositories keeps the state file free of such names, as it
    is when the scan starts without a state file. *)
Theorem excluded_branches_never_classified project file :
  configuration = inr file ->
  let excluded := (["master"; "develop"]%string ++ file_branches_to_exclude file) in
  ("master"%string ∈ excluded /\ "develop"%string ∈ excluded /\
   forall name, name ∈ file_branches_to_exclude file -> name ∈ excluded) /\
  (forall repository w,
     exists cfg, load_config project repository w = (w, inr cfg) /\
                 branches_to_exclude cfg = excluded /\
     (forall b w', displayId b ∈ excluded -> filter_branches cfg b w' = (w', inr None)) /\
     (forall values w1 w2 rows,
        gather (map (filter_branches cfg) values) w1 = (w2, inr rows) ->
        rows_exclude excluded (omap id rows))) /\
  (forall w, (forall dir, results w = Some dir -> state_json dir = None) ->
             store_excludes excluded w) /\
  (forall repositories w,
     store_excludes excluded w ->
     store_excludes excluded
       (fst (for_each repositories (process_repository project false) w))).
Proof.
  intros Hfile excluded. split; [|split; [|split]].
  - subst excluded. repeat split.
    + apply elem_of_app. left. apply elem_of_cons. auto.
    + apply elem_of_app. left. apply elem_of_cons. right. apply elem_of_cons. auto.
    + intros name Hname. apply elem_of_app. right. exact Hname.
  - intros repository w. eexists. unfold load_config. simpl. rewrite Hfile.
    split; [reflexivity|]. split; [reflexivity|]. split.
    + intros b w' Hb. apply filter_branches_excluded. exact Hb.
    + intros values w1 w2 rows Hrun.
      apply (gather_filter_branches_rows _ _ _ _ _ Hrun).
  - intros w Hnone dir data repository rows Hdir Hstate.
    rewrite (Hnone dir Hdir) in Hstate. discriminate.
  - intros repositories w. apply for_each_scan_store. exact Hfile.
Qed.

(** ** Failures on delete day *)

Lemma process_branches_for_deletion_results cfg branch_info branches w :
  results (fst (process_branches_for_deletion cfg branch_info branches w)) = results w.
Proof.
  rewrite process_branches_for_deletion_unfold. simpl.
  pose proof (reconcile_delta_calls cfg branch_info branches None w) as (_ & _ & Hr & _).
  destruct (reconcile_delta cfg branch_info branches None w) as [w1 [e|delta]];
    simpl in *; [exact Hr|].
  destruct (get_threshold (row_name branch_info) cfg); simpl; [exact Hr|].
  destruct delta as [delta|]; simpl; [|exact Hr].
  destruct ((delta >? z) && String.eqb (row_status branch_info) MARKED_FOR_DELETION);
    simpl; [|exact Hr].
  pose proof (delete_branch_permissions_calls cfg (row_name branch_info) w1)
    as (_ & _ & Hr2 & _).
  destruct (delete_branch_permissions cfg (row_name branch_info) w1) as [w2 [e|u]];
    simpl in *; congruence.
Qed.

(** C6, as the code has it. When the task of one stored row raises on
    delete day, every task of the batch is still run, but the fan-out
    returns no rows: it raises, the processing of the repository raises
    with it before any report is written, and the loop over the
    repositories stops there. *)
Theorem branch_failure_aborts_run project repository rest file values dir
    (data : gmap string (list row)) stored pre branch_info post w e :
  configuration = inr file ->
  contains "deprecated" repository = false ->
  body (bitbucket (history w) (GetBranches project repository)) = JBranches values ->
  results w = Some dir ->
  state_json dir = Some data ->
  data !! repository = Some stored ->
  stored = pre ++ branch_info :: post ->
  let cfg := Config (file_url file) project repository
               (["master"; "develop"]%string ++ file_branches_to_exclude file)
               (file_thresholds file) in
  let w0 := World (history w ++ [GetBranches project repository]) (results w) in
  let task := fun branch_info => process_branches_for_deletion cfg branch_info values in
  snd (task branch_info (run_all (map task pre) w0)) = inl e ->
  exists e',
    gather (map task stored) w0 = (run_all (map task stored) w0, inl e') /\
    process_repository project true repository w
      = (run_all (map task stored) w0, inl e') /\
    for_each (repository :: rest) (process_repository project true) w
      = (run_all (map task stored) w0, inl e') /\
    results (run_all (map task stored) w0) = results w.
Proof.
  intros Hfile Hdeprecated Hvalues Hdir Hstate Hstored -> cfg w0 task Hfail.
  destruct (gather_raises (map task pre) (task branch_info) (map task post) w0 e Hfail)
    as (e' & He').
  assert (Hgather : gather (map task (pre ++ branch_info :: post)) w0
                    = (run_all (map task (pre ++ branch_info :: post)) w0, inl e')).
  { rewrite <- gather_runs_all. rewrite map_app. simpl map. rewrite <- He'.
    apply surjective_pairing. }
  assert (Hrepo : process_repository project true repository w
                  = (run_all (map task (pre ++ branch_info :: post)) w0, inl e')).
  { unfold process_repository. rewrite Hdeprecated.
    unfold load_config, read_from_json. simpl. rewrite Hfile, Hvalues. simpl.
    rewrite Hdir, Hstate, Hstored. unfold bind.
    assert (Hw0 : World (history w ++ [GetBranches project repository]) (Some dir) = w0).
    { subst w0. rewrite Hdir. reflexivity. }
    rewrite Hw0.
    change (gather _ w0) with (gather (map task (pre ++ branch_info :: post)) w0).
    rewrite Hgather. reflexivity. }
  exists e'. split; [exact Hgather|]. split; [exact Hrepo|]. split.
  - simpl. rewrite Hrepo. reflexivity.
  - rewrite <- gather_runs_all.
    rewrite gather_results; [reflexivity|].
    intros t w' Ht. apply list_elem_of_fmap in Ht as (bi & -> & _).
    apply process_branches_for_deletion_results.
Qed.

(** ** The run *)

(** C9, as the code has it. With the command line parsed, the
    configuration read and the repositories named or listed, [main] raises the TypeError of
    [os.path("results")] and the process logs it and exits with status 1;
    and whatever the start, [main] never returns, sends no request about a
    repository, and leaves the [results] directory as it was or removes it:
    nothing is classified and no branch is deleted. *)
Theorem main_raises_before_any_repository w :
  (forall args file,
     command_line = inr args ->
     configuration = inr file ->
     (arg_repositories args = None \/ arg_repositories args = Some EmptyString ->
      exists names,
        body (bitbucket (history w) (GetRepositories (arg_project args)))
          = JRepositories names) ->
     snd (main w) = inl (TypeError "'module' object is not callable") /\
     snd (program w) = Outcome 1 (Some (TypeError "'module' object is not callable"))) /\
  (forall u, snd (main w) <> inr u) /\
  (exists calls,
     history (fst (main w)) = history w ++ calls /\
     forallb (fun c => negb (is_repository_request c)) calls = true) /\
  (results (fst (main w)) = results w \/ results (fst (main w)) = None) /\
  fst (program w) = fst (main w).
Proof.
  unfold program, main, argument_parser, load_config, os_path_exists_results, os_path,
    rmtree_results.
  simpl.
  destruct command_line as [e0|args]; simpl.
  { repeat split; try discriminate.
    - exists []. rewrite app_nil_r. auto.
    - auto.
    - destruct e0; reflexivity. }
  destruct configuration as [e0|file]; simpl.
  { repeat split; try discriminate.
    - exists []. rewrite app_nil_r. auto.
    - auto.
    - destruct e0; reflexivity. }
  destruct (arg_repositories args) as [[|a repositories]|] eqn:Hrepos; simpl.
  - destruct (body (bitbucket (history w) (GetRepositories (arg_project args))))
      eqn:Hbody; simpl;
      try (split; [intros args' file' [= <-] _ Hlist;
                   destruct Hlist as (names & Hn); [auto | congruence]
                  | repeat split; try discriminate;
                    [exists [GetRepositories (arg_project args)]; auto | auto]]).
    destruct (bool_decide (results w <> None) && negb (weekday today =? 4)); simpl;
      (split; [intros; split; reflexivity
              | repeat split; try discriminate;
                [exists [GetRepositories (arg_project args)]; auto | auto]]).
  - destruct (bool_decide (results w <> None) && negb (weekday today =? 4)); simpl;
      (split; [intros; split; reflexivity
              | repeat split; try discriminate;
                [exists []; rewrite app_nil_r; auto | auto]]).
  - destruct (body (bitbucket (history w) (GetRepositories (arg_project args))))
      eqn:Hbody; simpl;
      try (split; [intros args' file' [= <-] _ Hlist;
                   destruct Hlist as (names & Hn); [auto | congruence]
                  | repeat split; try discriminate;
                    [exists [GetRepositories (arg_project args)]; auto | auto]]).
    destruct (bool_decide (results w <> None) && negb (weekday today =? 4)); simpl;
      (split; [intros; split; reflexivity
              | repeat split; try discriminate;
                [exists [GetRepositories (arg_project args)]; auto | auto]]).
Qed.

(** * Further properties *)

(** ** Thresholds *)

Lemma split_head_before_slash prefix rest :
  ~ In "/"%char (list_ascii_of_string prefix) ->
  split_head (prefix ++ String "/" rest) = prefix /\ split_head prefix = prefix.
Proof.
  induction prefix as [|c prefix IH]; intros Hno; simpl.
  - auto.
  - simpl in Hno. destruct (Ascii.eqb_spec c "/") as [->|Hc].
    + exfalso. apply Hno. left. reflexivity.
    + destruct IH as [IH1 IH2]; [intros Hin; apply Hno; right; exact Hin|].
      rewrite IH1, IH2. auto.
Qed.

(** X1. The threshold is found whenever the table has the key [default]; the
    only exception of the resolver is the KeyError of [default], raised
    exactly when the table has neither the prefix nor [default]. *)
Theorem get_threshold_key_error branch_name cfg :
  (is_Some (thresholds cfg !! "default"%string) ->
   exists days, get_threshold branch_name cfg = inr days) /\
  (forall e, get_threshold branch_name cfg = inl e <->
     e = KeyError "default" /\
     thresholds cfg !! split_head branch_name = None /\
     thresholds cfg !! "default"%string = None).
Proof.
  unfold get_threshold. split.
  - intros [days Hdefault]. rewrite Hdefault.
    destruct (thresholds cfg !! split_head branch_name); eauto.
  - intros e. destruct (thresholds cfg !! split_head branch_name) as [days|].
    + split; [discriminate | intros (_ & Hnone & _); discriminate].
    + destruct (thresholds cfg !! "default"%string) as [days|].
      * split; [discriminate | intros (_ & _ & Hnone); discriminate].
      * split; [intros [= <-]; auto | intros (-> & _); reflexivity].
Qed.

(** X2. A name [prefix/rest] whose prefix holds no slash has the threshold of
    the name [prefix], which is its own prefix. *)
Theorem get_threshold_by_prefix prefix rest cfg :
  ~ In "/"%char (list_ascii_of_string prefix) ->
  get_threshold (prefix ++ String "/" rest) cfg = get_threshold prefix cfg /\
  get_threshold prefix cfg =
    match thresholds cfg !! prefix with
    | Some days => inr days
    | None => get_threshold "default" cfg
    end.
Proof.
  intros Hno. destruct (split_head_before_slash prefix rest Hno) as [Hfull Hself].
  unfold get_threshold. rewrite Hfull, Hself. split; [reflexivity|].
  destruct (thresholds cfg !! prefix); [reflexivity|].
  simpl. destruct (thresholds cfg !! "default"%string); reflexivity.
Qed.

(** ** The scan *)

(** X3. The classification of one branch sends at most one request, the lookup
    of its latest commit, and sends none exactly when the branch is excluded
    or its threshold does not resolve; it never touches the [results]
    directory. *)
Theorem filter_branches_requests cfg b w :
  let lookup := GetCommitStats (project cfg) (repository cfg) (latestCommit b) in
  let w' := fst (filter_branches cfg b w) in
  results w' = results w /\
  (history w' = history w \/ history w' = history w ++ [lookup]) /\
  (history w' = history w <->
   displayId b ∈ branches_to_exclude cfg \/
   exists e, get_threshold (displayId b) cfg = inl e).
Proof.
  intros lookup w'. split; [apply filter_branches_results|].
  subst w'. unfold filter_branches.
  destruct (bool_decide (displayId b ∈ branches_to_exclude cfg)) eqn:Hex; simpl.
  - apply bool_decide_eq_true in Hex. split; [auto|]. split; auto.
  - apply bool_decide_eq_false in Hex.
    destruct (get_threshold (displayId b) cfg) as [e|threshold] eqn:Hthr; simpl.
    + split; [auto|]. split; eauto.
    + assert (Hgrow : history w ++ [lookup] <> history w).
      { intros Heq. apply (f_equal (@length call)) in Heq.
        rewrite length_app in Heq. simpl in Heq. lia. }
      assert (Hh : history (fst (let (w0, s) := get_last_commit_date cfg (latestCommit b) w in
                                 match s with
                                 | inl e => (w0, inl e)
                                 | inr a =>
                                     (w0, inr (Some (Row (displayId b) (latestCommit b)
                                                       (today - a)
                                                       (if today - a <=? threshold
                                                        then RETAINED
                                                        else MARKED_FOR_DELETION))))
                                 end))
                   = history w ++ [lookup]).
      { unfold get_last_commit_date. simpl. fold lookup.
        destruct (body (bitbucket (history w) lookup)); try reflexivity.
        case_range; reflexivity. }
      rewrite Hh. split; [auto|]. split; [intros Heq; contradiction|].
      intros [Hin | [e He]]; [contradiction | discriminate].
Qed.

(** X4. The rows of a scan follow the live list: one row for each branch that
    is not excluded, in the order of the list, with its name and commit. *)
Theorem scan_rows_follow_live_list cfg values w w' rows :
  gather (map (filter_branches cfg) values) w = (w', inr rows) ->
  map (fun r => (row_name r, row_commit r)) (omap id rows)
    = map (fun b => (displayId b, latestCommit b))
        (List.filter (fun b => negb (bool_decide (displayId b ∈ branches_to_exclude cfg)))
           values).
Proof.
  revert w w' rows. induction values as [|b rest IH]; intros w w' rows Hrun.
  - injection Hrun as _ <-. reflexivity.
  - simpl map in Hrun. rewrite gather_cons in Hrun.
    destruct (filter_branches cfg b w) as [w1 [e|a]] eqn:Hb; simpl in Hrun;
      [discriminate|].
    destruct (gather (map (filter_branches cfg) rest) w1) as [w2 [e|l]] eqn:Hrest;
      simpl in Hrun; [discriminate|].
    injection Hrun as _ <-. specialize (IH w1 w2 l Hrest). simpl.
    destruct a as [r|].
    + unfold filter_branches in Hb.
      destruct (bool_decide (displayId b ∈ branches_to_exclude cfg)); simpl in Hb;
        [discriminate|].
      simpl. change (list_omap (option row) row id l) with (omap id l).
      rewrite IH. f_equal.
      destruct (get_threshold (displayId b) cfg); simpl in Hb; [discriminate|].
      unfold get_last_commit_date in Hb. simpl in Hb.
      destruct (body (bitbucket (history w) _)); simpl in Hb; try discriminate.
      case_range; simpl in Hb; [|discriminate].
      injection Hb as _ <-. reflexivity.
    + unfold filter_branches in Hb.
      destruct (bool_decide (displayId b ∈ branches_to_exclude cfg)); simpl in Hb.
      * simpl. exact IH.
      * destruct (get_threshold (displayId b) cfg); simpl in Hb; [discriminate|].
        unfold get_last_commit_date in Hb. simpl in Hb.
        destruct (body (bitbucket (history w) _)); simpl in Hb; try discriminate.
        case_range; simpl in Hb; discriminate.
Qed.

(** X5. A scan of a repository that raises leaves the [results] directory
    as it was, unless what raises is the opening of the log of the report,
    which comes after the rows are stored: then the state file has the entry
    of the repository and the log is as it was. The rows are stored only
    after every branch is classified. A scan that returns, of a repository
    that is not skipped, leaves a state file with an entry for the
    repository. *)
Theorem scan_stores_all_or_nothing project repository w :
  let run := process_repository project false repository w in
  (forall e, snd run = inl e ->
     results (fst run) = results w \/
     (opens_log project = false /\
      exists dir dir' (data : gmap string (list row)) entry,
        results w = Some dir /\ results (fst run) = Some dir' /\
        state_json dir' = Some data /\ data !! repository = Some entry /\
        purging_log dir' = purging_log dir)) /\
  (forall u, snd run = inr u -> contains "deprecated" repository = false ->
     exists dir (data : gmap string (list row)) entry,
       results (fst run) = Some dir /\ state_json dir = Some data /\
       data !! repository = Some entry).
Proof.
  intros run. subst run. unfold process_repository.
  destruct (contains "deprecated" repository).
  { split; [discriminate | intros u _ Hno; discriminate]. }
  unfold load_config. simpl.
  destruct configuration as [e0|file]; simpl.
  { split; [auto | discriminate]. }
  set (cfg := Config (file_url file) project repository _ (file_thresholds file)).
  set (w0 := World (history w ++ [GetBranches project repository]) (results w)).
  destruct (body (bitbucket (history w) (GetBranches project repository))); simpl;
    try (split; [auto | discriminate]).
  assert (Hgather : results (fst (gather (map (filter_branches cfg) values) w0))
                    = results w).
  { rewrite gather_results; [reflexivity|]. intros task w' Htask.
    apply list_elem_of_fmap in Htask as (b & -> & _). apply filter_branches_results. }
  destruct (gather (map (filter_branches cfg) values) w0) as [w1 [e|rows]]; simpl in *.
  { split; [intros; left; exact Hgather | discriminate]. }
  destruct (results w1) as [dir|] eqn:Hdir.
  - destruct (write_to_json_entry_length repository (omap id rows) w1 dir Hdir)
      as (data & Hwrite & entry & Hentry & _).
    rewrite Hwrite. simpl. unfold generate_report. simpl.
    destruct (omap id rows) as [|r rs]; simpl.
    + split; [discriminate|]. intros u _ _.
      eexists _, data, entry. split; [reflexivity|]. split; [reflexivity | exact Hentry].
    + destruct (opens_log project) eqn:Hopens; simpl.
      * split; [discriminate|]. intros u _ _.
        eexists _, data, entry.
        split; [reflexivity|]. split; [reflexivity | exact Hentry].
      * split; [|discriminate]. intros e _. right. split; [reflexivity|].
        eexists dir, _, data, entry. split; [symmetry; exact Hgather|].
        split; [reflexivity|]. split; [reflexivity|]. split; [exact Hentry | reflexivity].
  - rewrite (write_to_json_no_directory _ _ _ Hdir). simpl. rewrite Hdir.
    split; [intros; left; exact Hgather | discriminate].
Qed.

(** ** The delete day *)

Lemma process_branches_for_deletion_row cfg branch_info branches w w' r :
  process_branches_for_deletion cfg branch_info branches w = (w', inr r) ->
  row_name r = row_name branch_info /\
  row_commit r = row_commit branch_info /\
  (row_status r = row_status branch_info \/ row_status r = DELETED).
Proof.
  rewrite process_branches_for_deletion_unfold. simpl.
  destruct (reconcile_delta cfg branch_info branches None w) as [w1 [e|delta]];
    [discriminate|].
  destruct (get_threshold (row_name branch_info) cfg); [discriminate|].
  destruct delta as [delta|]; [|discriminate].
  destruct ((delta >? z) && String.eqb (row_status branch_info) MARKED_FOR_DELETION).
  - destruct (delete_branch_permissions cfg (row_name branch_info) w1) as [w2 [e|u]];
      [discriminate|].
    destruct (status_code (bitbucket (history w2) _) =? 204); [|discriminate].
    intros [= _ <-]. simpl. auto.
  - intros [= _ <-]. simpl. auto.
Qed.

(** X6. The outcomes of a delete day follow the stored rows: one outcome for
    each stored row, in order, with the stored name and the stored commit
    (also when the live commit differs), and with the stored status or
    DELETED. *)
Theorem outcomes_follow_stored_rows cfg stored branches w w' outcomes :
  gather (map (fun branch_info => process_branches_for_deletion cfg branch_info branches)
            stored) w = (w', inr outcomes) ->
  map (fun r => (row_name r, row_commit r)) outcomes
    = map (fun r => (row_name r, row_commit r)) stored /\
  Forall2 (fun branch_info r =>
             row_status r = row_status branch_info \/ row_status r = DELETED)
    stored outcomes.
Proof.
  revert w w' outcomes. induction stored as [|branch_info rest IH];
    intros w w' outcomes Hrun.
  - injection Hrun as _ <-. split; [reflexivity | constructor].
  - simpl map in Hrun. rewrite gather_cons in Hrun.
    destruct (process_branches_for_deletion cfg branch_info branches w)
      as [w1 [e|r]] eqn:Hone; simpl in Hrun; [discriminate|].
    destruct (gather (map (fun branch_info =>
                             process_branches_for_deletion cfg branch_info branches) rest)
                w1) as [w2 [e|l]] eqn:Hrest; simpl in Hrun; [discriminate|].
    injection Hrun as _ <-. destruct (IH w1 w2 l Hrest) as [Hnames Hstatus].
    destruct (process_branches_for_deletion_row _ _ _ _ _ _ Hone) as (Hn & Hc & Hs).
    split.
    + simpl. rewrite Hnames, Hn, Hc. reflexivity.
    + constructor; assumption.
Qed.

(** X7. The loop over the live list that runs to its end has sent one commit
    lookup for each live entry that has the stored name and another commit,
    in the order of the list, whether or not the name is held once; and it
    has assigned no inactivity exactly when no live entry has the name. *)
Theorem reconcile_delta_lookups cfg branch_info branches w w' delta :
  reconcile_delta cfg branch_info branches None w = (w', inr delta) ->
  history w' = history w
    ++ map (fun b => GetCommitStats (project cfg) (repository cfg) (latestCommit b))
         (List.filter (fun b => String.eqb (displayId b) (row_name branch_info)
                                && negb (String.eqb (latestCommit b)
                                           (row_commit branch_info)))
            branches) /\
  (delta = None <-> Forall (fun b => displayId b <> row_name branch_info) branches).
Proof.
  assert (Hgen : forall branches start w w' delta,
            reconcile_delta cfg branch_info branches start w = (w', inr delta) ->
            history w' = history w
              ++ map (fun b => GetCommitStats (project cfg) (repository cfg)
                                 (latestCommit b))
                   (List.filter (fun b => String.eqb (displayId b) (row_name branch_info)
                                          && negb (String.eqb (latestCommit b)
                                                     (row_commit branch_info)))
                      branches) /\
            (delta = None <->
             start = None /\
             Forall (fun b => displayId b <> row_name branch_info) branches)).
  { clear. intros branches. induction branches as [|_b rest IH];
      intros start w w' delta Hrun; simpl in Hrun.
    - injection Hrun as <- <-. simpl. rewrite app_nil_r. split; [reflexivity|].
      split; [intros ->; auto | intros [-> _]; reflexivity].
    - simpl List.filter.
      destruct (String.eqb_spec (displayId _b) (row_name branch_info)) as [Hname|Hname].
      + destruct (String.eqb (latestCommit _b) (row_commit branch_info)); simpl negb.
        * simpl andb. cbv iota. destruct (IH _ _ _ _ Hrun) as [Hh Hnone].
          split; [exact Hh|]. rewrite Hnone.
          split; [intros [Habs _]; discriminate|].
          intros [_ Hall]. apply Forall_cons in Hall as [Hne _]. contradiction.
        * simpl andb. cbv iota.
          unfold bind, get_last_commit_date in Hrun. simpl in Hrun.
          destruct (body (bitbucket (history w) _)); simpl in Hrun; try discriminate.
          case_range; simpl in Hrun; [|discriminate].
          destruct (IH _ _ _ _ Hrun) as [Hh Hnone]. simpl in Hh.
          split; [rewrite Hh, <- app_assoc; reflexivity|]. rewrite Hnone.
          split; [intros [Habs _]; discriminate|].
          intros [_ Hall]. apply Forall_cons in Hall as [Hne _]. contradiction.
      + simpl andb. cbv iota. destruct (IH _ _ _ _ Hrun) as [Hh Hnone].
        split; [exact Hh|]. rewrite Hnone. split.
        * intros [-> Hall]. split; [reflexivity|]. constructor; assumption.
        * intros [-> Hall]. apply Forall_cons in Hall as [_ Hall]. auto. }
  intros Hrun. destruct (Hgen _ _ _ _ _ Hrun) as [Hh Hnone]. split; [exact Hh|].
  rewrite Hnone. split; [intros [_ Hall]; exact Hall | auto].
Qed.

Lemma delete_matching_permissions_requests cfg branch_name values w w' u :
  delete_matching_permissions cfg branch_name values w = (w', inr u) ->
  history w' = history w
    ++ map (fun i => DeleteBranchPermission (project cfg) (repository cfg)
                       (restriction_id i))
         (List.filter (fun i => String.eqb branch_name (matcher_displayId i)) values).
Proof.
  revert w. induction values as [|i rest IH]; intros w Hrun; simpl in Hrun.
  - injection Hrun as <-. simpl. rewrite app_nil_r. reflexivity.
  - simpl List.filter. destruct (String.eqb branch_name (matcher_displayId i)).
    + unfold bind in Hrun. simpl in Hrun.
      destruct (status_code (bitbucket (history w) _) =? 204); simpl in Hrun;
        [|discriminate].
      rewrite (IH _ Hrun). simpl. rewrite <- app_assoc. reflexivity.
    + apply IH. exact Hrun.
Qed.

(** X8. A permission step that returns was answered with the restrictions, and
    it has sent, after the listing, the deletion of each restriction whose
    matcher is the name of the branch, in the order of the listing, and of
    no other; with no such restriction it has sent the listing only. *)
Theorem delete_branch_permissions_requests cfg branch_name w w' u :
  delete_branch_permissions cfg branch_name w = (w', inr u) ->
  let listing := GetBranchPermissions (project cfg) (repository cfg) in
  exists values,
    body (bitbucket (history w) listing) = JRestrictions values /\
    status_code (bitbucket (history w) listing) = 200 /\
    history w' = history w ++ listing
      :: map (fun i => DeleteBranchPermission (project cfg) (repository cfg)
                         (restriction_id i))
           (List.filter (fun i => String.eqb branch_name (matcher_displayId i)) values) /\
    results w' = results w.
Proof.
  intros Hrun listing.
  pose proof (delete_branch_permissions_calls cfg branch_name w) as (_ & _ & Hr & _ & _).
  rewrite Hrun in Hr. simpl in Hr.
  unfold delete_branch_permissions in Hrun. unfold bind in Hrun. simpl in Hrun.
  fold listing in Hrun.
  destruct (status_code (bitbucket (history w) listing) =? 200) eqn:Hcode;
    simpl in Hrun; [|discriminate].
  destruct (body (bitbucket (history w) listing)) as [| | |values|] eqn:Hbody;
    simpl in Hrun; try discriminate.
  exists values. split; [reflexivity|]. split; [apply Z.eqb_eq; exact Hcode|].
  split; [|exact Hr].
  rewrite (delete_matching_permissions_requests _ _ _ _ _ _ Hrun). simpl.
  rewrite <- app_assoc. reflexivity.
Qed.

(** X9. The processing of a repository on a delete day never changes the state
    file: it stays absent when absent, and keeps its document when present;
    a row of a deleted branch stays in it. *)
Theorem delete_day_keeps_state_file project repository w :
  let w' := fst (process_repository project true repository w) in
  (results w = None -> results w' = None) /\
  (forall dir, results w = Some dir ->
     exists dir', results w' = Some dir' /\ state_json dir' = state_json dir).
Proof.
  intros w'. subst w'. unfold process_repository.
  destruct (contains "deprecated" repository); [split; eauto|].
  unfold load_config, read_from_json. simpl.
  destruct configuration as [e0|file]; simpl; [split; eauto|].
  set (cfg := Config (file_url file) project repository _ (file_thresholds file)).
  destruct (body (bitbucket (history w) (GetBranches project repository))); simpl;
    try solve [split; eauto].
  destruct (results w) as [dir|] eqn:Hdir; simpl; [|split; [reflexivity | discriminate]].
  destruct (state_json dir) as [data|] eqn:Hstate; simpl;
    [|split; [discriminate | intros dir0 [= <-]; eauto]].
  destruct (data !! repository) as [stored|]; simpl;
    [|split; [discriminate | intros dir0 [= <-]; eauto]].
  unfold bind.
  match goal with
  | |- context [gather ?tasks ?w0] =>
      assert (Hgather : results (fst (gather tasks w0)) = Some dir);
      [ rewrite gather_results; [reflexivity|]; intros task w1 Htask;
        apply list_elem_of_fmap in Htask as (bi & -> & _);
        apply process_branches_for_deletion_results
      | destruct (gather tasks w0) as [w1 [e|outcomes]] ]
  end; simpl in *.
  - split; [discriminate | intros dir0 [= <-]; eauto].
  - destruct (generate_report_state_json project repository outcomes w1) as [_ Hsome].
    destruct (Hsome dir Hgather) as (dir' & Hdir' & Hstate').
    split; [discriminate | intros dir0 [= <-]; eauto].
Qed.

(** X10. A delete day needs the rows of the repository: after the listing of
    the branches, without a state file the processing raises the TypeError
    of indexing [None], and with a state file that has no entry for the
    repository it raises the KeyError of the repository; nothing else is
    sent. *)
Theorem delete_day_needs_stored_rows project repository file values w :
  configuration = inr file ->
  contains "deprecated" repository = false ->
  body (bitbucket (history w) (GetBranches project repository)) = JBranches values ->
  let w0 := World (history w ++ [GetBranches project repository]) (results w) in
  ((forall dir, results w = Some dir -> state_json dir = None) ->
   process_repository project true repository w
     = (w0, inl (TypeError "'NoneType' object is not subscriptable"))) /\
  (forall dir (data : gmap string (list row)),
     results w = Some dir -> state_json dir = Some data -> data !! repository = None ->
     process_repository project true repository w = (w0, inl (KeyError repository))).
Proof.
  intros Hfile Hdeprecated Hvalues w0. subst w0. unfold process_repository.
  rewrite Hdeprecated. unfold load_config, read_from_json. simpl.
  rewrite Hfile, Hvalues. simpl. split.
  - intros Hnone. destruct (results w) as [dir|] eqn:Hdir; [|reflexivity].
    rewrite (Hnone dir eq_refl). reflexivity.
  - intros dir data Hdir Hstate Hrepo. rewrite Hdir, Hstate, Hrepo. reflexivity.
Qed.

(** X11. Scan and delete day compose: for a row of the scan whose branch the
    live list of the delete day holds once, at the same commit and under the
    same configuration, a RETAINED row is returned as it is without a
    request, and a row MARKED FOR DELETION starts the delete sequence with
    the listing of the permissions. *)
Theorem scan_row_on_delete_day cfg b w0 w1 r branches w :
  filter_branches cfg b w0 = (w1, inr (Some r)) ->
  NoDup (map displayId branches) ->
  b ∈ branches ->
  let run := process_branches_for_deletion cfg r branches w in
  (row_status r = RETAINED \/ row_status r = MARKED_FOR_DELETION) /\
  (row_status r = RETAINED -> run = (w, inr r)) /\
  (row_status r = MARKED_FOR_DELETION ->
   exists tail,
     history (fst run)
       = history w ++ GetBranchPermissions (project cfg) (repository cfg) :: tail).
Proof.
  intros Hscan Hnodup Hin run. subst run.
  unfold filter_branches in Hscan.
  destruct (bool_decide (displayId b ∈ branches_to_exclude cfg)); simpl in Hscan;
    [discriminate|].
  destruct (get_threshold (displayId b) cfg) as [e|threshold] eqn:Hthr; simpl in Hscan;
    [discriminate|].
  unfold get_last_commit_date in Hscan. simpl in Hscan.
  destruct (body (bitbucket (history w0) _)) as [| |ts| |]; simpl in Hscan;
    try discriminate.
  case_range; simpl in Hscan; [|discriminate].
  injection Hscan as _ <-. simpl.
  set (delta := today - utc_day ts).
  rewrite process_branches_for_deletion_unfold. simpl.
  match goal with
  | |- context [reconcile_delta cfg ?bi branches None w] =>
      rewrite (reconcile_delta_unique cfg bi branches b None w Hnodup Hin eq_refl)
  end. simpl.
  rewrite String.eqb_refl, Hthr. fold delta.
  destruct (Z.leb_spec delta threshold) as [Hle|Hgt].
  - split; [auto|]. split; [|discriminate]. intros _.
    assert (Hguard : (delta >? threshold) = false)
      by (rewrite Z.gtb_ltb; apply Z.ltb_ge; lia).
    rewrite Hguard. reflexivity.
  - split; [auto|]. split; [discriminate|]. intros _.
    assert (Hguard : (delta >? threshold) = true)
      by (rewrite Z.gtb_ltb; apply Z.ltb_lt; lia).
    rewrite Hguard. simpl.
    pose proof (delete_branch_permissions_calls cfg (displayId b) w)
      as (deletes & Hh & _ & _ & _).
    destruct (delete_branch_permissions cfg (displayId b) w) as [w2 [e|u]]; simpl in *.
    + eauto.
    + rewrite Hh, <- app_assoc. simpl. eauto.
Qed.

(** ** The state file *)

(** X12. A merge fails only for want of the [results] directory, with the
    FileNotFoundError of the state file and no change. In the directory it
    sends no request, leaves the log alone, and leaves a document that
    [read_from_json] returns, in which the repository has an entry as long
    as the merged rows and every other repository has the entry it had. *)
Theorem write_to_json_frame repository rows w :
  (results w = None ->
   write_to_json repository rows w = (w, inl (FileNotFoundError "results/state.json"))) /\
  (forall dir, results w = Some dir ->
     exists data' : gmap string (list row),
       let w' := World (history w) (Some (ResultsDir (Some data') (purging_log dir))) in
       write_to_json repository rows w = (w', inr tt) /\
       read_from_json w' = (w', inr (Some data')) /\
       (exists entry, data' !! repository = Some entry /\ length entry = length rows) /\
       (forall other, other <> repository ->
          data' !! other = match state_json dir with
                           | Some data => data !! other
                           | None => None
                           end)).
Proof.
  split; [apply write_to_json_no_directory|].
  intros dir Hdir.
  assert (Hinsert : forall (data : gmap string (list row)),
            (exists entry, <[repository := rows]> data !! repository = Some entry /\
                           length entry = length rows) /\
            (forall other, other <> repository ->
               <[repository := rows]> data !! other = data !! other)).
  { intros data. split.
    - exists rows. split; [apply lookup_insert_eq | reflexivity].
    - intros other Hother. apply lookup_insert_ne. congruence. }
  destruct (state_json dir) as [data|] eqn:Hfile.
  - destruct (data !! repository) as [old|] eqn:Hold.
    + destruct (Nat.eq_dec (length old) (length rows)) as [Hlen|Hlen].
      * exists data. split; [eapply write_to_json_keep; eassumption|].
        split; [reflexivity|]. split; [eauto | reflexivity].
      * exists (<[repository := rows]> data).
        split; [apply write_to_json_replace; eauto|].
        split; [reflexivity | apply Hinsert].
    + exists (<[repository := rows]> data).
      split; [apply write_to_json_replace; eauto|].
      split; [reflexivity | apply Hinsert].
  - exists {[repository := rows]}.
    split; [apply write_to_json_first; assumption|].
    split; [reflexivity|]. rewrite <- insert_empty.
    destruct (Hinsert ∅) as [Hentry Hframe]. split; [exact Hentry|].
    intros other Hother. rewrite (Hframe other Hother). apply lookup_empty.
Qed.

(** ** The run *)

Lemma contains_deprecated_skipped project is_friday repository w :
  contains "deprecated" repository = true ->
  process_repository project is_friday repository w = (w, inr tt).
Proof. intros Hskip. unfold process_repository. rewrite Hskip. reflexivity. Qed.

(** X13. Repositories whose name contains [deprecated] take no part in a run:
    the loop over a list of repositories is the loop over the list without
    them. *)
Theorem deprecated_repositories_skipped project is_friday repositories w :
  for_each repositories (process_repository project is_friday) w
    = for_each (List.filter (fun repository => negb (contains "deprecated" repository))
                  repositories)
        (process_repository project is_friday) w.
Proof.
  revert w. induction repositories as [|repository rest IH]; intros w; [reflexivity|].
  simpl. destruct (contains "deprecated" repository) eqn:Hskip; simpl.
  - rewrite (contains_deprecated_skipped _ _ _ _ Hskip). apply IH.
  - destruct (process_repository project is_friday repository w) as [w1 [e|u]];
      [reflexivity | apply IH].
Qed.

(** X15. With the command line parsed, the configuration read and the
    repositories named or listed, a run on a Friday leaves the [results]
    directory as it was, and a run on any other day leaves none: an
    existing directory, with its state file, is removed before [main]
    raises. *)
Theorem main_removes_results_unless_friday args file w :
  command_line = inr args ->
  configuration = inr file ->
  (arg_repositories args = None \/ arg_repositories args = Some EmptyString ->
   exists names,
     body (bitbucket (history w) (GetRepositories (arg_project args)))
       = JRepositories names) ->
  (weekday today = 4 -> results (fst (main w)) = results w) /\
  (weekday today <> 4 -> results (fst (main w)) = None).
Proof.
  intros Hargs Hfile Hlist.
  unfold main, argument_parser, load_config, os_path_exists_results, os_path,
    rmtree_results.
  simpl. rewrite Hargs, Hfile. simpl.
  assert (Hday : (weekday today = 4 ->
                  bool_decide (results w <> None) && negb (weekday today =? 4) = false) /\
                 (weekday today <> 4 ->
                  bool_decide (results w <> None) && negb (weekday today =? 4) = false ->
                  results w = None)).
  { split.
    - intros Hfriday. apply Z.eqb_eq in Hfriday. rewrite Hfriday. apply andb_false_r.
    - intros Hother. apply Z.eqb_neq in Hother. rewrite Hother, andb_true_r.
      intros Hnone. apply bool_decide_eq_false in Hnone.
      destruct (results w); [exfalso; apply Hnone; discriminate | reflexivity]. }
  destruct Hday as [Hfriday Hother].
  destruct (arg_repositories args) as [[|a repositories]|] eqn:Hrepos; simpl;
    try (destruct Hlist as (names & Hnames); [auto|]; rewrite Hnames; simpl);
    (split;
     [ intros Hday; rewrite (Hfriday Hday); reflexivity
     | intros Hday;
       destruct (bool_decide (results w <> None) && negb (weekday today =? 4)) eqn:Hcase;
       [reflexivity | simpl; apply (Hother Hday eq_refl)] ]).
Qed.

Lemma main_never_returns w u : snd (main w) <> inr u.
Proof.
  unfold main, argument_parser, load_config, os_path_exists_results, os_path,
    rmtree_results.
  simpl.
  destruct command_line as [e0|args]; simpl; [discriminate|].
  destruct configuration as [e0|file]; simpl; [discriminate|].
  destruct (arg_repositories args) as [[|a repositories]|]; simpl;
    try destruct (body (bitbucket (history w) (GetRepositories (arg_project args))));
    simpl; try discriminate;
    destruct (bool_decide (results w <> None) && negb (weekday today =? 4)); simpl;
    discriminate.
Qed.

(** X16. How the process ends: an exception of [main] that is an [Exception] is
    logged and gives the status 1; a SystemExit is not caught and gives its
    own code, with nothing logged; and since [main] never returns, the
    status is 0 only after a SystemExit of code 0. *)
Theorem program_exit_status w :
  (forall e, snd (main w) = inl e -> is_Exception e = true ->
             snd (program w) = Outcome 1 (Some e)) /\
  (forall code, snd (main w) = inl (SystemExit code) ->
                snd (program w) = Outcome code None) /\
  (exit_status (snd (program w)) = 0 -> snd (main w) = inl (SystemExit 0)).
Proof.
  pose proof (main_never_returns w) as Hnever. unfold program.
  destruct (main w) as [w' [e|u]]; simpl in *.
  - split; [|split].
    + intros e' [= <-] He. destruct e; try reflexivity. discriminate.
    + intros code [= ->]. reflexivity.
    + destruct e; simpl; try discriminate. intros ->. reflexivity.
  - destruct (Hnever u eq_refl).
Qed.

(** ** The report *)

Lemma string_length_append (s1 s2 : string) :
  String.length (s1 ++ s2) = (String.length s1 + String.length s2)%nat.
Proof. induction s1 as [|c s1 IH]; simpl; [reflexivity | rewrite IH; reflexivity]. Qed.

Lemma string_append_assoc (s1 s2 s3 : string) :
  ((s1 ++ s2) ++ s3 = s1 ++ (s2 ++ s3))%string.
Proof.
  induction s1 as [|c s1 IH]; [reflexivity|].
  change (String c ((s1 ++ s2) ++ s3) = String c (s1 ++ (s2 ++ s3)))%string.
  f_equal. exact IH.
Qed.

Lemma repeat_char_length c n : String.length (repeat_char c n) = n.
Proof. induction n as [|n IH]; simpl; [reflexivity | rewrite IH; reflexivity]. Qed.

Lemma format_cell_length width c :
  (String.length (str_cell c) <= width)%nat ->
  String.length (format_cell width c) = width.
Proof.
  intros Hfit. destruct c as [s|n]; simpl in *;
    rewrite string_length_append, repeat_char_length; lia.
Qed.

Lemma formatted_row_length a b c d c1 c2 c3 c4 :
  (String.length (str_cell c1) <= a)%nat ->
  (String.length (str_cell c2) <= b)%nat ->
  (String.length (str_cell c3) <= c)%nat ->
  (String.length (str_cell c4) <= d)%nat ->
  String.length (formatted_row [a; b; c; d] [c1; c2; c3; c4]) = (a + b + c + d + 3)%nat.
Proof.
  intros H1 H2 H3 H4. unfold formatted_row. simpl.
  rewrite !string_length_append. simpl.
  rewrite !format_cell_length by assumption. lia.
Qed.

(** The widths after the loop over the rows: no less than before, and no
    less than the cells of each row. *)
Lemma fold_update_widths rows a b c d :
  exists a' b' c' d',
    fold_left (fun widths row => update_widths widths (row_cells row)) rows [a; b; c; d]
      = [a'; b'; c'; d'] /\
    (a <= a' /\ b <= b' /\ c <= c' /\ d <= d')%nat /\
    Forall (fun r => (String.length (row_name r) <= a')%nat /\
                     (String.length (row_commit r) <= b')%nat /\
                     (String.length (str_int (row_delta r)) <= c')%nat /\
                     (String.length (row_status r) <= d')%nat) rows.
Proof.
  revert a b c d. induction rows as [|r rest IH]; intros a b c d.
  - exists a, b, c, d. simpl. repeat split; auto.
  - simpl.
    destruct (IH (Nat.max (String.length (row_name r)) a)
                 (Nat.max (String.length (row_commit r)) b)
                 (Nat.max (String.length (str_int (row_delta r))) c)
                 (Nat.max (String.length (row_status r)) d))
      as (a' & b' & c' & d' & Hfold & Hle & Hall).
    exists a', b', c', d'. split; [exact Hfold|]. split; [lia|].
    constructor; [lia | exact Hall].
Qed.

Lemma format_data_length rows : length (format_data rows) = (2 + length rows)%nat.
Proof. unfold format_data. simpl. rewrite length_map. reflexivity. Qed.

(** X17. The table of the report has its two heading lines and one line for
    each row; all its lines are equally long, at least as long as the
    heading; and the line of a row starts with the whole name of its
    branch. *)
Theorem format_data_aligned rows :
  length (format_data rows) = (2 + length rows)%nat /\
  exists width,
    (41 <= width)%nat /\
    (forall line, line ∈ format_data rows -> String.length line = width) /\
    (forall i r, rows !! i = Some r ->
       exists rest, format_data rows !! (2 + i)%nat = Some (row_name r ++ rest)%string).
Proof.
  split; [apply format_data_length|]. unfold format_data.
  change (map String.length header) with [6; 11; 15; 6]%nat.
  destruct (fold_update_widths rows 6 11 15 6) as (a & b & c & d & -> & Hle & Hall).
  exists (a + b + c + d + 3)%nat. split; [lia|]. split.
  - intros line Hline. apply elem_of_cons in Hline as [-> | Hline].
    { apply formatted_row_length; simpl; lia. }
    apply elem_of_cons in Hline as [-> | Hline].
    { apply formatted_row_length; simpl; lia. }
    apply list_elem_of_fmap in Hline as (r & -> & Hr).
    rewrite Forall_forall in Hall. destruct (Hall r Hr) as (H1 & H2 & H3 & H4).
    apply formatted_row_length; simpl; assumption.
  - intros i r Hr. simpl. rewrite list_lookup_fmap, Hr. simpl.
    unfold formatted_row. simpl. rewrite string_append_assoc. eauto.
Qed.

Lemma count_rows_statuses results retained deleted :
  Forall (fun r => row_status r = RETAINED \/ row_status r = MARKED_FOR_DELETION \/
                   row_status r = DELETED) results ->
  fold_left (fun counts i =>
               if contains "retained" (lower (row_status i))
               then (S (fst counts), snd counts)
               else (fst counts, S (snd counts)))
    results (retained, deleted)
  = ((retained
      + length (List.filter (fun r => String.eqb (row_status r) RETAINED) results))%nat,
     (deleted
      + length (List.filter (fun r => negb (String.eqb (row_status r) RETAINED)) results))%nat).
Proof.
  intros Hall. revert retained deleted.
  induction Hall as [|r rest Hr _ IH]; intros retained deleted; simpl.
  - f_equal; lia.
  - destruct Hr as [-> | [-> | ->]]; simpl; rewrite IH; simpl; f_equal; lia.
Qed.

(** X18. For rows with the three statuses of the program, the summary counts
    as retained the RETAINED rows and as deleted all the others, the rows
    MARKED FOR DELETION among them; the two counts add up to the total, and
    the line of the repository is appended exactly when a row is not
    RETAINED. *)
Theorem report_body_counts repository results body :
  Forall (fun r => row_status r = RETAINED \/ row_status r = MARKED_FOR_DELETION \/
                   row_status r = DELETED) results ->
  let retained :=
    length (List.filter (fun r => String.eqb (row_status r) RETAINED) results) in
  let deleted :=
    length (List.filter (fun r => negb (String.eqb (row_status r) RETAINED)) results) in
  (retained + deleted = length results)%nat /\
  report_body repository results body
    = if (0 <? deleted)%nat
      then body ++ [(repository, length results, retained, deleted)]
      else body.
Proof.
  intros Hall retained deleted. split.
  - subst retained deleted. clear. induction results as [|r rest IH]; simpl; [reflexivity|].
    destruct (String.eqb (row_status r) RETAINED); simpl; lia.
  - unfold report_body, count_rows. rewrite (count_rows_statuses _ _ _ Hall).
    rewrite format_data_length. simpl.
    fold retained. fold deleted.
    destruct results as [|r rest]; [reflexivity|]. reflexivity.
Qed.

(** ** The names of the repositories *)

(** X19. The split at the commas of the [--repositories] argument loses
    nothing and trims nothing: the parts joined by commas are the argument,
    there is at least one part, and no part holds a comma. *)
Theorem split_comma_join s :
  String.concat "," (split_comma s) = s /\
  split_comma s <> [] /\
  Forall (fun part => ~ In ","%char (list_ascii_of_string part)) (split_comma s).
Proof.
  induction s as [|c rest (Hjoin & Hne & Hparts)]; simpl.
  - repeat split; [discriminate|].
    constructor; [intros Hin; exact Hin | constructor].
  - destruct (Ascii.eqb_spec c ",") as [->|Hc].
    + repeat split.
      * destruct (split_comma rest) as [|hd tl]; [contradiction|].
        rewrite <- Hjoin. reflexivity.
      * discriminate.
      * constructor; [intros Hin; exact Hin | exact Hparts].
    + destruct (split_comma rest) as [|hd tl]; [contradiction|].
      repeat split.
      * destruct tl as [|x tl]; rewrite <- Hjoin; reflexivity.
      * discriminate.
      * apply Forall_cons in Hparts as [Hhd Htl]. constructor; [|exact Htl].
        simpl. intros [Heq | Hin]; [apply Hc; exact Heq | contradiction].
Qed.

Lemma prefix_append sub post : String.prefix sub (sub ++ post) = true.
Proof.
  induction sub as [|c sub IH]; simpl.
  - destruct post; reflexivity.
  - destruct (ascii_dec c c); [exact IH | contradiction].
Qed.

Lemma contains_prefix sub s : String.prefix sub s = true -> contains sub s = true.
Proof.
  intros Hprefix. destruct s as [|c s].
  - destruct sub; [reflexivity | discriminate].
  - unfold contains. fold contains. rewrite Hprefix. reflexivity.
Qed.

Lemma contains_substring sub pre post : contains sub (pre ++ sub ++ post) = true.
Proof.
  induction pre as [|c pre IH].
  - apply contains_prefix. exact (prefix_append sub post).
  - change (contains sub (String c (pre ++ sub ++ post)) = true).
    simpl. rewrite IH. apply orb_true_r.
Qed.

(** X14. A repository with [deprecated] anywhere in its name, in this case, is
    skipped on either day: nothing is sent and nothing changes. *)
Theorem deprecated_name_skipped project is_friday repository w :
  (exists pre post, repository = (pre ++ "deprecated" ++ post)%string) ->
  process_repository project is_friday repository w = (w, inr tt).
Proof.
  intros (pre & post & ->). apply contains_deprecated_skipped, contains_substring.
Qed.

(** ** The merge of the session settings *)

Lemma deep_merge_atom_item key a rest d :
  deep_merge (PyDict ((key, PyAtom a) :: rest)) (PyDict d)
    = deep_merge (PyDict rest) (PyDict (dict_set key (PyAtom a) d)).
Proof. reflexivity. Qed.

Lemma deep_merge_dict_item key items rest d :
  deep_merge (PyDict ((key, PyDict items) :: rest)) (PyDict d)
    = match deep_merge (PyDict items) (default (PyDict []) (dict_get key d)) with
      | inl e => inl e
      | inr node => deep_merge (PyDict rest) (PyDict (dict_set key node d))
      end.
Proof. reflexivity. Qed.

Lemma dict_get_set_eq key value d : dict_get key (dict_set key value d) = Some value.
Proof.
  induction d as [|[k v] rest IH]; simpl.
  - rewrite String.eqb_refl. reflexivity.
  - destruct (String.eqb k key) eqn:Hk; simpl; rewrite Hk; [reflexivity | exact IH].
Qed.

Lemma dict_get_set_ne key other value d :
  key <> other -> dict_get other (dict_set key value d) = dict_get other d.
Proof.
  intros Hne. induction d as [|[k v] rest IH]; simpl.
  - apply String.eqb_neq in Hne. rewrite Hne. reflexivity.
  - destruct (String.eqb_spec k key) as [->|Hk]; simpl.
    + apply String.eqb_neq in Hne. rewrite Hne. reflexivity.
    + destruct (String.eqb k other); [reflexivity | exact IH].
Qed.

Lemma dict_set_same key value d : dict_get key d = Some value -> dict_set key value d = d.
Proof.
  induction d as [|[k v] rest IH]; simpl; [discriminate|].
  destruct (String.eqb k key); [intros [= ->]; reflexivity|].
  intros Hget. rewrite (IH Hget). reflexivity.
Qed.

Lemma deep_merge_frame source d r :
  deep_merge (PyDict source) (PyDict d) = inr r ->
  exists d',
    r = PyDict d' /\
    (forall key, key ∉ map fst source -> dict_get key d' = dict_get key d).
Proof.
  revert d. induction source as [|[k v] rest IH]; intros d Hrun.
  - injection Hrun as <-. eauto.
  - assert (Hstep : forall node,
              deep_merge (PyDict rest) (PyDict (dict_set k node d)) = inr r ->
              exists d',
                r = PyDict d' /\
                (forall key, key ∉ map fst ((k, v) :: rest) ->
                             dict_get key d' = dict_get key d)).
    { intros node Hrest. destruct (IH _ Hrest) as (d' & -> & Hother).
      exists d'. split; [reflexivity|].
      intros key Hnot. simpl in Hnot. apply not_elem_of_cons in Hnot as [Hne Hnot].
      rewrite (Hother key Hnot). apply dict_get_set_ne. congruence. }
    destruct v as [a|items].
    + rewrite deep_merge_atom_item in Hrun. eapply Hstep. exact Hrun.
    + rewrite deep_merge_dict_item in Hrun.
      destruct (deep_merge (PyDict items) (default (PyDict []) (dict_get k d)))
        as [e|node]; [discriminate|].
      eapply Hstep. exact Hrun.
Qed.

(** X20. A merge that returns gives a dictionary that has every key of the
    destination and every key of the source, and in which a key that the
    source does not have keeps the value it had. *)
Theorem deep_merge_keeps_other_keys source d r :
  deep_merge (PyDict source) (PyDict d) = inr r ->
  exists d',
    r = PyDict d' /\
    (forall key, key ∉ map fst source -> dict_get key d' = dict_get key d) /\
    (forall key, is_Some (dict_get key d) \/ key ∈ map fst source ->
                 is_Some (dict_get key d')).
Proof.
  revert d. induction source as [|[k v] rest IH]; intros d Hrun.
  - injection Hrun as <-. exists d. split; [reflexivity|]. split; [reflexivity|].
    intros key [Hd | Hin]; [exact Hd | inversion Hin].
  - assert (Hstep : forall node,
              deep_merge (PyDict rest) (PyDict (dict_set k node d)) = inr r ->
              exists d',
                r = PyDict d' /\
                (forall key, key ∉ map fst ((k, v) :: rest) ->
                             dict_get key d' = dict_get key d) /\
                (forall key, is_Some (dict_get key d) \/ key ∈ map fst ((k, v) :: rest) ->
                             is_Some (dict_get key d'))).
    { intros node Hrest. destruct (IH _ Hrest) as (d' & -> & Hother & Hkeys).
      exists d'. split; [reflexivity|]. split.
      - intros key Hnot. simpl in Hnot. apply not_elem_of_cons in Hnot as [Hne Hnot].
        rewrite (Hother key Hnot). apply dict_get_set_ne. congruence.
      - intros key Hkey. apply Hkeys.
        destruct (String.eqb_spec k key) as [<-|Hne].
        + left. rewrite dict_get_set_eq. eauto.
        + rewrite (dict_get_set_ne _ _ _ _ Hne).
          destruct Hkey as [Hd | Hin]; [left; exact Hd|].
          simpl in Hin. apply elem_of_cons in Hin as [Heq | Hin]; [congruence | auto]. }
    destruct v as [a|items].
    + rewrite deep_merge_atom_item in Hrun. eapply Hstep. exact Hrun.
    + rewrite deep_merge_dict_item in Hrun.
      destruct (deep_merge (PyDict items) (default (PyDict []) (dict_get k d)))
        as [e|node]; [discriminate|].
      eapply Hstep. exact Hrun.
Qed.

(** X21. With the keys of the source distinct, a merge that returns has taken
    the source key by key: a value of the source that is no dictionary
    replaces the value of the destination, and a dictionary of the source is
    merged into the value of the destination, or into a new dictionary
    when the destination has no such key. *)
Theorem deep_merge_source_wins source d d' :
  NoDup (map fst source) ->
  deep_merge (PyDict source) (PyDict d) = inr (PyDict d') ->
  (forall key a, (key, PyAtom a) ∈ source -> dict_get key d' = Some (PyAtom a)) /\
  (forall key items, (key, PyDict items) ∈ source ->
     exists node,
       deep_merge (PyDict items) (default (PyDict []) (dict_get key d)) = inr node /\
       dict_get key d' = Some node).
Proof.
  revert d. induction source as [|[k v] rest IH]; intros d Hnodup Hrun.
  - split; intros key x Hin; inversion Hin.
  - simpl in Hnodup. apply NoDup_cons in Hnodup as [Hfresh Hnodup].
    assert (Hstep : forall node,
              deep_merge (PyDict rest) (PyDict (dict_set k node d)) = inr (PyDict d') ->
              dict_get k d' = Some node /\
              (forall key a, (key, PyAtom a) ∈ rest -> dict_get key d' = Some (PyAtom a)) /\
              (forall key items, (key, PyDict items) ∈ rest ->
                 exists node',
                   deep_merge (PyDict items) (default (PyDict []) (dict_get key d))
                     = inr node' /\
                   dict_get key d' = Some node')).
    { intros node Hrest.
      destruct (deep_merge_frame _ _ _ Hrest) as (d0 & [= <-] & Hother).
      destruct (IH _ Hnodup Hrest) as [Hatoms Hdicts].
      split; [rewrite (Hother k Hfresh); apply dict_get_set_eq|].
      split; [exact Hatoms|].
      intros key items Hin. destruct (Hdicts key items Hin) as (node' & Hmerge & Hget).
      exists node'. split; [|exact Hget].
      rewrite dict_get_set_ne in Hmerge; [exact Hmerge|].
      intros ->. apply Hfresh. apply list_elem_of_fmap. exists (key, PyDict items). auto. }
    destruct v as [a|items].
    + rewrite deep_merge_atom_item in Hrun.
      destruct (Hstep _ Hrun) as (Hk & Hatoms & Hdicts). split.
      * intros key a' Hin. apply elem_of_cons in Hin as [[= -> ->] | Hin]; auto.
      * intros key items Hin. apply elem_of_cons in Hin as [Heq | Hin];
          [discriminate | auto].
    + rewrite deep_merge_dict_item in Hrun.
      destruct (deep_merge (PyDict items) (default (PyDict []) (dict_get k d)))
        as [e|node] eqn:Hinner; [discriminate|].
      destruct (Hstep _ Hrun) as (Hk & Hatoms & Hdicts). split.
      * intros key a' Hin. apply elem_of_cons in Hin as [Heq | Hin];
          [discriminate | auto].
      * intros key items' Hin. apply elem_of_cons in Hin as [[= -> ->] | Hin]; eauto.
Qed.

(** X22. Where the source has a dictionary and the destination a value that is
    no dictionary: an empty dictionary of the source leaves that value, and
    a dictionary with an item makes the merge raise. *)
Theorem deep_merge_dictionary_over_value key a d rest :
  dict_get key d = Some (PyAtom a) ->
  deep_merge (PyDict ((key, PyDict []) :: rest)) (PyDict d)
    = deep_merge (PyDict rest) (PyDict d) /\
  (forall item items,
     exists e,
       deep_merge (PyDict ((key, PyDict (item :: items)) :: rest)) (PyDict d) = inl e).
Proof.
  intros Hget. split.
  - rewrite deep_merge_dict_item, Hget. simpl. rewrite (dict_set_same _ _ _ Hget).
    reflexivity.
  - intros [k v] items. rewrite deep_merge_dict_item, Hget. simpl.
    destruct v; eauto.
Qed.

(** ** Failures of the requests *)

(** X23. When the last request of a task is a branch delete, the answer decides
    the outcome: on the status 204 the row is DELETED, and on any other
    status the task raises, not the ValueError that [delete_branch] builds,
    but the TypeError of indexing its [body], a string, by a name. *)
Theorem branch_delete_outcome cfg branch_info branches w pre c :
  let run := process_branches_for_deletion cfg branch_info branches w in
  history (fst run) = history w ++ pre ++ [c] ->
  is_branch_delete c = true ->
  (status_code (bitbucket (history w ++ pre) c) = 204 ->
   exists delta,
     snd run = inr (Row (row_name branch_info) (row_commit branch_info) delta DELETED)) /\
  (status_code (bitbucket (history w ++ pre) c) <> 204 ->
   snd run = inl (TypeError "string indices must be integers")).
Proof.
  intros run Hcalls Hc. subst run.
  pose proof (reconcile_delta_calls cfg branch_info branches None w)
    as (lookups & Hh1 & _ & Hlookups).
  rewrite process_branches_for_deletion_unfold in *. simpl in *.
  assert (Hno : forall l : list call,
            forallb (fun x => negb (is_branch_delete x)) l = true ->
            history w ++ l = history w ++ pre ++ [c] -> False).
  { intros l Hall Heq. apply app_inv_head in Heq. subst l.
    rewrite forallb_app in Hall. apply andb_true_iff in Hall as [_ Hlast].
    simpl in Hlast. rewrite Hc in Hlast. discriminate. }
  assert (Hnot_lookups : forallb (fun x => negb (is_branch_delete x)) lookups = true).
  { apply forallb_forall. intros x Hx. rewrite forallb_forall in Hlookups.
    specialize (Hlookups x Hx). destruct x; simpl in *; congruence. }
  destruct (reconcile_delta cfg branch_info branches None w) as [w1 [e|delta]];
    simpl in *.
  { rewrite Hh1 in Hcalls. destruct (Hno _ Hnot_lookups Hcalls). }
  destruct (get_threshold (row_name branch_info) cfg) as [e|threshold]; simpl in *.
  { rewrite Hh1 in Hcalls. destruct (Hno _ Hnot_lookups Hcalls). }
  destruct delta as [delta|]; simpl in *.
  2:{ rewrite Hh1 in Hcalls. destruct (Hno _ Hnot_lookups Hcalls). }
  destruct ((delta >? threshold) && String.eqb (row_status branch_info) MARKED_FOR_DELETION);
    simpl in *.
  2:{ rewrite Hh1 in Hcalls. destruct (Hno _ Hnot_lookups Hcalls). }
  pose proof (delete_branch_permissions_calls cfg (row_name branch_info) w1)
    as (deletes & Hh2 & _ & Hdeletes & _).
  assert (Hnot_deletes :
            forallb (fun x => negb (is_branch_delete x))
              (lookups ++ GetBranchPermissions (project cfg) (repository cfg) :: deletes)
            = true).
  { rewrite forallb_app, Hnot_lookups. simpl.
    apply forallb_forall. intros x Hx. rewrite forallb_forall in Hdeletes.
    specialize (Hdeletes x Hx). destruct x; simpl in *; congruence. }
  destruct (delete_branch_permissions cfg (row_name branch_info) w1) as [w2 [e|u]];
    simpl in *.
  { rewrite Hh2, Hh1, <- app_assoc in Hcalls. destruct (Hno _ Hnot_deletes Hcalls). }
  rewrite Hh2, Hh1, <- !app_assoc in Hcalls. apply app_inv_head in Hcalls.
  rewrite app_assoc in Hcalls. apply app_inj_tail in Hcalls as [Hpre <-].
  rewrite Hh2, Hh1, <- app_assoc, Hpre.
  destruct (Z.eqb_spec
              (status_code
                 (bitbucket (history w ++ pre)
                    (DeleteBranch (project cfg) (repository cfg) (row_name branch_info)
                       (row_commit branch_info)))) 204) as [Hok|Hbad].
  - split; [eauto | contradiction].
  - split; [contradiction | reflexivity].
Qed.


End Program.

(** * The sample project *)

(** [release/1.0], 69 days old against 30, is marked for deletion. *)
Lemma filter_branches_disposition_witness :
  exists w' r,
    filter_branches (Scenario.service 204) Scenario.day_2024_03_10 Scenario.cfg
      Scenario.release Scenario.fresh = (w', inr (Some r)) /\
    row_name r = "release/1.0"%string /\
    row_delta r = 69 /\
    row_status r = MARKED_FOR_DELETION.
Proof.
  destruct (filter_branches_disposition (Scenario.service 204) Scenario.day_2024_03_10
              Scenario.cfg Scenario.release Scenario.fresh 30 eq_refl)
    as [Hrule Hrow].
  destruct (Hrow 1704067200000) as (w' & r & Hrun & Hname & Hdelta).
  - apply (bool_decide_eq_false_1 _). vm_compute. reflexivity.
  - reflexivity.
  - reflexivity.
  - exists w', r. split; [exact Hrun|]. split; [exact Hname|]. split; [exact Hdelta|].
    destruct (Hrule w' r Hrun) as (_ & Hgreater & _).
    apply Hgreater. rewrite Hdelta. reflexivity.
Defined.

(** C5 fails on the code: a commit dated a day after the run gives the
    inactivity -1. *)
Lemma filter_branches_future_commit_negative :
  snd (filter_branches (Scenario.service 204) Scenario.day_2024_03_10 Scenario.cfg
         (Branch "feature/y" "c3") Scenario.fresh)
    = inr (Some (Row "feature/y" "c3" (-1) RETAINED)) /\
  ~ (0 <= -1)%Z.
Proof. split; [vm_compute; reflexivity | lia]. Qed.

Lemma filter_branches_inactivity_witness :
  exists w' r,
    filter_branches (Scenario.service 204) Scenario.day_2024_03_10 Scenario.cfg
      (Branch "feature/y" "c3") Scenario.fresh = (w', inr (Some r)) /\
    row_delta r = 19792 - utc_day 1710115200000 /\
    (0 <= row_delta r <-> utc_day 1710115200000 <= 19792) /\
    (19792 < utc_day 1710115200000 -> row_delta r < 0).
Proof.
  destruct (filter_branches_inactivity (Scenario.service 204) Scenario.day_2024_03_10
              Scenario.cfg (Branch "feature/y" "c3") Scenario.fresh 45 1710115200000)
    as [Hconverted _].
  - apply (bool_decide_eq_false_1 _). vm_compute. reflexivity.
  - vm_compute. reflexivity.
  - reflexivity.
  - apply Hconverted. reflexivity.
Defined.

(** A second merge of two rows over two rows changes nothing. *)
Lemma write_to_json_idempotent_witness :
  let first := write_to_json "R" [Scenario.stored_release; Scenario.stored_feature]
                 Scenario.delete_day in
  write_to_json "R" [Scenario.stored_feature; Scenario.stored_hotfix] (fst first)
    = (fst first, snd first).
Proof.
  apply (write_to_json_idempotent "R" [Scenario.stored_release; Scenario.stored_feature]
           [Scenario.stored_feature; Scenario.stored_hotfix] Scenario.delete_day).
  reflexivity.
Defined.

(** [feature/x], stored as RETAINED, stays RETAINED without a request. *)
Lemma deletion_requires_stale_and_marked_witness :
  process_branches_for_deletion (Scenario.service 204) Scenario.day_2024_03_10 Scenario.cfg
    Scenario.stored_feature Scenario.live_branches Scenario.fresh
    = (Scenario.fresh, inr (Row "feature/x" "c2" 19 RETAINED)).
Proof.
  destruct (deletion_requires_stale_and_marked (Scenario.service 204)
              Scenario.day_2024_03_10 Scenario.cfg Scenario.stored_feature
              Scenario.live_branches Scenario.fresh) as [_ Hkept].
  destruct (Hkept Scenario.fresh 19 45) as [Hrun _].
  - reflexivity.
  - vm_compute. reflexivity.
  - intros [_ Hstatus]. discriminate.
  - exact Hrun.
Defined.

(** A stored row of [release/1.0] at an older commit costs one lookup. *)
Lemma commit_lookup_iff_commit_changed_witness :
  history (fst (process_branches_for_deletion (Scenario.service 204)
                  Scenario.day_2024_03_10 Scenario.cfg
                  (Row "release/1.0" "c0" 80 MARKED_FOR_DELETION)
                  Scenario.live_branches Scenario.fresh))
    = [] ++ [GetCommitStats "PRJ" "R" "c1"; GetBranchPermissions "PRJ" "R";
             DeleteBranchPermission "PRJ" "R" 7;
             DeleteBranch "PRJ" "R" "release/1.0" "c0"] /\
  count_calls is_commit_lookup
    [GetCommitStats "PRJ" "R" "c1"; GetBranchPermissions "PRJ" "R";
     DeleteBranchPermission "PRJ" "R" 7; DeleteBranch "PRJ" "R" "release/1.0" "c0"]
    = 1%nat.
Proof.
  assert (Hcalls : history (fst (process_branches_for_deletion (Scenario.service 204)
                                   Scenario.day_2024_03_10 Scenario.cfg
                                   (Row "release/1.0" "c0" 80 MARKED_FOR_DELETION)
                                   Scenario.live_branches Scenario.fresh))
                   = history Scenario.fresh
                     ++ [GetCommitStats "PRJ" "R" "c1"; GetBranchPermissions "PRJ" "R";
                         DeleteBranchPermission "PRJ" "R" 7;
                         DeleteBranch "PRJ" "R" "release/1.0" "c0"]).
  { vm_compute. reflexivity. }
  split; [exact Hcalls|].
  assert (Hnodup : NoDup (map displayId Scenario.live_branches)).
  { repeat constructor; intros Hin;
      repeat (apply elem_of_cons in Hin as [Hin|Hin]; [discriminate|]); inversion Hin. }
  assert (Hin : Scenario.release ∈ Scenario.live_branches).
  { apply elem_of_cons. left. reflexivity. }
  destruct (commit_lookup_iff_commit_changed (Scenario.service 204) Scenario.day_2024_03_10
              Scenario.cfg (Row "release/1.0" "c0" 80 MARKED_FOR_DELETION)
              Scenario.live_branches Scenario.release Scenario.fresh Hnodup Hin eq_refl)
    as (_ & _ & Hcount).
  destruct (Hcount _ Hcalls) as [Hone _]. exact Hone.
Defined.

(** The delete sequence of [release/1.0]: listing, permission, branch. *)
Lemma permission_step_precedes_branch_delete_witness :
  let listing := GetBranchPermissions "PRJ" "R" in
  let permission := DeleteBranchPermission "PRJ" "R" 7 in
  let deletion := DeleteBranch "PRJ" "R" "release/1.0" "c1" in
  history (fst (process_branches_for_deletion (Scenario.service 204)
                  Scenario.day_2024_03_10 Scenario.cfg Scenario.stored_release
                  Scenario.live_branches Scenario.fresh))
    = [] ++ [listing; permission; deletion] /\
  listing ∈ [listing; permission].
Proof.
  intros listing permission deletion.
  assert (Hcalls : history (fst (process_branches_for_deletion (Scenario.service 204)
                                   Scenario.day_2024_03_10 Scenario.cfg
                                   Scenario.stored_release Scenario.live_branches
                                   Scenario.fresh))
                   = history Scenario.fresh ++ [listing; permission; deletion]).
  { vm_compute. reflexivity. }
  split; [exact Hcalls|].
  destruct (permission_step_precedes_branch_delete (Scenario.service 204)
              Scenario.day_2024_03_10 Scenario.cfg Scenario.stored_release
              Scenario.live_branches Scenario.fresh [listing; permission; deletion] Hcalls)
    as [Horder _].
  destruct (Horder [listing; permission] deletion [] eq_refl eq_refl)
    as (_ & _ & Hbefore & _).
  exact Hbefore.
Defined.

(** A stored row whose branch is gone from the live list. *)
Lemma missing_branch_unbound_delta_witness :
  process_branches_for_deletion (Scenario.service 204) Scenario.day_2024_03_10 Scenario.cfg
    (Row "feature/gone" "c5" 60 MARKED_FOR_DELETION) Scenario.live_branches Scenario.fresh
    = (Scenario.fresh, inl (UnboundLocalError "delta")).
Proof.
  destruct (missing_branch_unbound_delta (Scenario.service 204) Scenario.day_2024_03_10
              Scenario.cfg (Row "feature/gone" "c5" 60 MARKED_FOR_DELETION)
              Scenario.live_branches Scenario.fresh) as [Hunbound _].
  exact (Hunbound ltac:(repeat constructor; discriminate) 45 eq_refl).
Defined.

(** [master] is not classified, whatever its commit. *)
Lemma excluded_branches_never_classified_witness :
  exists cfg,
    load_config (inr Scenario.file) "PRJ" "R" Scenario.fresh = (Scenario.fresh, inr cfg) /\
    filter_branches (Scenario.service 204) Scenario.day_2024_03_10 cfg
      (Branch "master" "c1") Scenario.fresh = (Scenario.fresh, inr None).
Proof.
  destruct (excluded_branches_never_classified (Scenario.service 204)
              Scenario.day_2024_03_10 (inr Scenario.file) Scenario.opens_log "PRJ" Scenario.file eq_refl)
    as (_ & Hconfig & _ & _).
  destruct (Hconfig "R"%string Scenario.fresh) as (cfg & Hload & _ & Hnone & _).
  exists cfg. split; [exact Hload|].
  apply Hnone. apply elem_of_cons. left. reflexivity.
Defined.

(** C6 fails on the code: the permission of [release/1.0] cannot be
    deleted; [hotfix/2] is deleted all the same, but the batch returns no
    row, no report is written, and the repository [S] is never reached. *)
Lemma failed_branch_aborts_the_run :
  for_each ["R"; "S"]%string
    (process_repository (Scenario.service 500) Scenario.day_2024_03_10
       (inr Scenario.file) Scenario.opens_log "PRJ" true) Scenario.delete_day
  = (World [GetBranches "PRJ" "R";
            GetBranchPermissions "PRJ" "R"; DeleteBranchPermission "PRJ" "R" 7;
            GetBranchPermissions "PRJ" "R"; DeleteBranch "PRJ" "R" "hotfix/2" "c4"]
       (results Scenario.delete_day),
     inl (ValueError (ErrorDeletingBranchPermissions "release/1.0" 500))) /\
  forall outcomes,
    snd (gather (map (fun branch_info =>
                        process_branches_for_deletion (Scenario.service 500)
                          Scenario.day_2024_03_10 Scenario.cfg branch_info
                          Scenario.live_branches)
                   [Scenario.stored_release; Scenario.stored_hotfix])
           (World [GetBranches "PRJ" "R"] (results Scenario.delete_day)))
    <> inr outcomes.
Proof.
  split; [vm_compute; reflexivity|].
  intros outcomes. vm_compute. discriminate.
Qed.

Lemma branch_failure_aborts_run_witness :
  let task := fun branch_info =>
                process_branches_for_deletion (Scenario.service 500)
                  Scenario.day_2024_03_10 Scenario.cfg branch_info Scenario.live_branches in
  let stored := [Scenario.stored_release; Scenario.stored_hotfix] in
  let w0 := World [GetBranches "PRJ" "R"] (results Scenario.delete_day) in
  exists e',
    gather (map task stored) w0 = (run_all (map task stored) w0, inl e') /\
    process_repository (Scenario.service 500) Scenario.day_2024_03_10 (inr Scenario.file) Scenario.opens_log
      "PRJ" true "R" Scenario.delete_day = (run_all (map task stored) w0, inl e') /\
    for_each ["R"; "S"]%string
      (process_repository (Scenario.service 500) Scenario.day_2024_03_10
         (inr Scenario.file) Scenario.opens_log "PRJ" true) Scenario.delete_day
      = (run_all (map task stored) w0, inl e') /\
    results (run_all (map task stored) w0) = results Scenario.delete_day.
Proof.
  apply (branch_failure_aborts_run (Scenario.service 500) Scenario.day_2024_03_10
           (inr Scenario.file) Scenario.opens_log "PRJ" "R" ["S"%string] Scenario.file Scenario.live_branches
           (ResultsDir (Some {["R"%string := [Scenario.stored_release; Scenario.stored_hotfix]]}) [])
           {["R"%string := [Scenario.stored_release; Scenario.stored_hotfix]]}
           [Scenario.stored_release; Scenario.stored_hotfix]
           [] Scenario.stored_release [Scenario.stored_hotfix] Scenario.delete_day
           (ValueError (ErrorDeletingBranchPermissions "release/1.0" 500)));
    reflexivity.
Defined.

(** C9 fails on the code: with a command line that [argparse] refuses,
    the process exits with the status 2 of the SystemExit, nothing is
    logged, and [main] has raised no TypeError. *)
Lemma usage_error_exits_with_status_2 :
  program (Scenario.service 204) Scenario.day_2024_03_10 (inl (SystemExit 2))
    (inr Scenario.file) Scenario.opens_log Scenario.fresh
  = (Scenario.fresh, Outcome 2 None) /\
  snd (main (Scenario.service 204) Scenario.day_2024_03_10 (inl (SystemExit 2))
         (inr Scenario.file) Scenario.opens_log Scenario.fresh)
  <> inl (TypeError "'module' object is not callable").
Proof. split; [reflexivity | vm_compute; discriminate]. Qed.

(** A run for the repositories [R] and [S] ends at [os.path]. *)
Lemma main_raises_before_any_repository_witness :
  snd (main (Scenario.service 204) Scenario.day_2024_03_10 (inr Scenario.args)
         (inr Scenario.file) Scenario.opens_log Scenario.fresh)
    = inl (TypeError "'module' object is not callable") /\
  snd (program (Scenario.service 204) Scenario.day_2024_03_10 (inr Scenario.args)
         (inr Scenario.file) Scenario.opens_log Scenario.fresh)
    = Outcome 1 (Some (TypeError "'module' object is not callable")).
Proof.
  destruct (main_raises_before_any_repository (Scenario.service 204)
              Scenario.day_2024_03_10 (inr Scenario.args) (inr Scenario.file) Scenario.opens_log
              Scenario.fresh) as [Hraises _].
  apply (Hraises Scenario.args Scenario.file eq_refl eq_refl).
  intros [Hnone | Hempty]; discriminate.
Defined.

(** ** Runs of the sample project *)

Example split_head_release : split_head "release/1.0/rc" = "release"%string.
Proof. reflexivity. Qed.

Example split_comma_repositories : split_comma "R,S" = ["R"; "S"]%string.
Proof. reflexivity. Qed.

Example contains_deprecated : contains "deprecated" "old-deprecated-api" = true.
Proof. reflexivity. Qed.

Example weekday_2024_03_08 : weekday 19790 = 4.
Proof. reflexivity. Qed.

Example get_threshold_release : get_threshold "release/1.0" Scenario.cfg = inr 30.
Proof. vm_compute. reflexivity. Qed.

Example get_threshold_default : get_threshold "feature/x" Scenario.cfg = inr 45.
Proof. vm_compute. reflexivity. Qed.

(** The scan of [R]: [release/1.0] is marked, [feature/x] (19 days) and
    [hotfix/2] (50 days against 45) get their rows, and the rows are stored. *)
Example scan_of_R :
  process_repository (Scenario.service 204) Scenario.day_2024_03_10 (inr Scenario.file) Scenario.opens_log
    "PRJ" false "R" (World [] (Some (ResultsDir None [])))
  = (let rows := [Row "release/1.0" "c1" 69 MARKED_FOR_DELETION;
                  Row "feature/x" "c2" 19 RETAINED;
                  Row "hotfix/2" "c4" 50 MARKED_FOR_DELETION] in
     (World [GetBranches "PRJ" "R"; GetCommitStats "PRJ" "R" "c1";
             GetCommitStats "PRJ" "R" "c2"; GetCommitStats "PRJ" "R" "c4"]
        (Some (ResultsDir (Some {["R"%string := rows]}) [("R"%string, rows)])),
      inr tt)).
Proof. vm_compute. reflexivity. Qed.

(** The delete day of [R] when every request succeeds. *)
Example delete_day_of_R :
  process_repository (Scenario.service 204) Scenario.day_2024_03_10 (inr Scenario.file) Scenario.opens_log
    "PRJ" true "R" Scenario.delete_day
  = (World [GetBranches "PRJ" "R";
            GetBranchPermissions "PRJ" "R"; DeleteBranchPermission "PRJ" "R" 7;
            DeleteBranch "PRJ" "R" "release/1.0" "c1";
            GetBranchPermissions "PRJ" "R"; DeleteBranch "PRJ" "R" "hotfix/2" "c4"]
       (Some (ResultsDir
                (Some {["R"%string := [Scenario.stored_release; Scenario.stored_hotfix]]})
                [("R"%string, [Row "release/1.0" "c1" 69 DELETED;
                               Row "hotfix/2" "c4" 50 DELETED])])),
     inr tt).
Proof. vm_compute. reflexivity. Qed.

(** ** Further runs of the sample project *)

Lemma get_threshold_by_prefix_witness :
  get_threshold "release/1.0" Scenario.cfg = get_threshold "release" Scenario.cfg /\
  get_threshold "release" Scenario.cfg = inr 30.
Proof.
  apply (get_threshold_by_prefix "release" "1.0" Scenario.cfg).
  simpl. intros Hin. repeat (destruct Hin as [Hin|Hin]; [discriminate|]). exact Hin.
Defined.

Lemma scan_rows_follow_live_list_witness :
  map (fun r => (row_name r, row_commit r))
    (omap id [None; Some (Row "release/1.0" "c1" 69 MARKED_FOR_DELETION);
              Some (Row "feature/x" "c2" 19 RETAINED);
              Some (Row "hotfix/2" "c4" 50 MARKED_FOR_DELETION)])
  = [("release/1.0", "c1"); ("feature/x", "c2"); ("hotfix/2", "c4")]%string.
Proof.
  apply (scan_rows_follow_live_list (Scenario.service 204) Scenario.day_2024_03_10
           Scenario.cfg (Branch "master" "c9" :: Scenario.live_branches) Scenario.fresh
           (World [GetCommitStats "PRJ" "R" "c1"; GetCommitStats "PRJ" "R" "c2";
                   GetCommitStats "PRJ" "R" "c4"] None)).
  vm_compute. reflexivity.
Defined.

Lemma outcomes_follow_stored_rows_witness :
  map (fun r => (row_name r, row_commit r))
    [Row "release/1.0" "c1" 69 DELETED; Row "hotfix/2" "c4" 50 DELETED]
  = map (fun r => (row_name r, row_commit r))
      [Scenario.stored_release; Scenario.stored_hotfix] /\
  Forall2 (fun branch_info r =>
             row_status r = row_status branch_info \/ row_status r = DELETED)
    [Scenario.stored_release; Scenario.stored_hotfix]
    [Row "release/1.0" "c1" 69 DELETED; Row "hotfix/2" "c4" 50 DELETED].
Proof.
  apply (outcomes_follow_stored_rows (Scenario.service 204) Scenario.day_2024_03_10
           Scenario.cfg [Scenario.stored_release; Scenario.stored_hotfix]
           Scenario.live_branches Scenario.fresh
           (World [GetBranchPermissions "PRJ" "R"; DeleteBranchPermission "PRJ" "R" 7;
                   DeleteBranch "PRJ" "R" "release/1.0" "c1";
                   GetBranchPermissions "PRJ" "R";
                   DeleteBranch "PRJ" "R" "hotfix/2" "c4"] None)).
  vm_compute. reflexivity.
Defined.

(** A live list that holds [release/1.0] twice, first at another commit. *)
Lemma reconcile_delta_lookups_witness :
  history (World [GetCommitStats "PRJ" "R" "c4"] None)
    = history Scenario.fresh ++ [GetCommitStats "PRJ" "R" "c4"] /\
  (Some 69 = None <->
   Forall (fun b => displayId b <> "release/1.0"%string)
     [Branch "release/1.0" "c4"; Scenario.release]).
Proof.
  apply (reconcile_delta_lookups (Scenario.service 204) Scenario.day_2024_03_10
           Scenario.cfg Scenario.stored_release
           [Branch "release/1.0" "c4"; Scenario.release] Scenario.fresh
           (World [GetCommitStats "PRJ" "R" "c4"] None) (Some 69)).
  vm_compute. reflexivity.
Defined.

Lemma delete_branch_permissions_requests_witness :
  exists values,
    body (Scenario.service 204 [] (GetBranchPermissions "PRJ" "R")) = JRestrictions values /\
    status_code (Scenario.service 204 [] (GetBranchPermissions "PRJ" "R")) = 200 /\
    [GetBranchPermissions "PRJ" "R"; DeleteBranchPermission "PRJ" "R" 7]
      = [] ++ GetBranchPermissions "PRJ" "R"
        :: map (fun i => DeleteBranchPermission "PRJ" "R" (restriction_id i))
             (List.filter (fun i => String.eqb "release/1.0" (matcher_displayId i)) values) /\
    @None results_dir = None.
Proof.
  apply (delete_branch_permissions_requests (Scenario.service 204) Scenario.cfg
           "release/1.0" Scenario.fresh
           (World [GetBranchPermissions "PRJ" "R"; DeleteBranchPermission "PRJ" "R" 7] None)
           tt).
  vm_compute. reflexivity.
Defined.

(** A delete day before any scan. *)
Lemma delete_day_needs_stored_rows_witness :
  process_repository (Scenario.service 204) Scenario.day_2024_03_10 (inr Scenario.file) Scenario.opens_log
    "PRJ" true "R" Scenario.fresh
  = (World [GetBranches "PRJ" "R"] None,
     inl (TypeError "'NoneType' object is not subscriptable")).
Proof.
  destruct (delete_day_needs_stored_rows (Scenario.service 204) Scenario.day_2024_03_10
              (inr Scenario.file) Scenario.opens_log "PRJ" "R" Scenario.file Scenario.live_branches
              Scenario.fresh eq_refl eq_refl eq_refl) as [Hnone _].
  apply Hnone. intros dir Hdir. discriminate.
Defined.

Lemma scan_row_on_delete_day_witness :
  process_branches_for_deletion (Scenario.service 204) Scenario.day_2024_03_10 Scenario.cfg
    (Row "feature/x" "c2" 19 RETAINED) Scenario.live_branches Scenario.delete_day
  = (Scenario.delete_day, inr (Row "feature/x" "c2" 19 RETAINED)).
Proof.
  assert (Hnodup : NoDup (map displayId Scenario.live_branches)).
  { repeat constructor; intros Hin;
      repeat (apply elem_of_cons in Hin as [Hin|Hin]; [discriminate|]); inversion Hin. }
  assert (Hin : Scenario.feature ∈ Scenario.live_branches).
  { apply elem_of_cons. right. apply elem_of_cons. left. reflexivity. }
  assert (Hscan : filter_branches (Scenario.service 204) Scenario.day_2024_03_10
                    Scenario.cfg Scenario.feature Scenario.fresh
                  = (World [GetCommitStats "PRJ" "R" "c2"] None,
                     inr (Some (Row "feature/x" "c2" 19 RETAINED)))).
  { vm_compute. reflexivity. }
  destruct (scan_row_on_delete_day (Scenario.service 204) Scenario.day_2024_03_10
              Scenario.cfg Scenario.feature Scenario.fresh _ _ Scenario.live_branches
              Scenario.delete_day Hscan Hnodup Hin) as (_ & Hretained & _).
  apply Hretained. reflexivity.
Defined.

(** A run on Sunday 2024-03-10 removes the rows of the last scan. *)
Lemma main_removes_results_unless_friday_witness :
  results (fst (main (Scenario.service 204) Scenario.day_2024_03_10 (inr Scenario.args)
                  (inr Scenario.file) Scenario.opens_log Scenario.delete_day)) = None.
Proof.
  destruct (main_removes_results_unless_friday (Scenario.service 204)
              Scenario.day_2024_03_10 (inr Scenario.args) (inr Scenario.file) Scenario.opens_log
              Scenario.args Scenario.file Scenario.delete_day eq_refl eq_refl)
    as [_ Hother].
  - intros [Hnone | Hempty]; discriminate.
  - apply Hother. vm_compute. discriminate.
Defined.

(** A recovered branch, still MARKED FOR DELETION, counts as deleted. *)
Lemma report_body_counts_witness :
  (1 + 2 = 3)%nat /\
  report_body "R" [Row "release/1.0" "c1" 69 DELETED; Row "feature/x" "c2" 19 RETAINED;
                   Row "hotfix/2" "c4" 12 MARKED_FOR_DELETION] []
  = [("R"%string, 3%nat, 1%nat, 2%nat)].
Proof.
  apply (report_body_counts "R"
           [Row "release/1.0" "c1" 69 DELETED; Row "feature/x" "c2" 19 RETAINED;
            Row "hotfix/2" "c4" 12 MARKED_FOR_DELETION] []).
  constructor; [right; right; reflexivity|].
  constructor; [left; reflexivity|].
  constructor; [right; left; reflexivity | constructor].
Defined.

Lemma deprecated_name_skipped_witness :
  process_repository (Scenario.service 204) Scenario.day_2024_03_10 (inr Scenario.file) Scenario.opens_log
    "PRJ" true "old-deprecated-api" Scenario.delete_day
  = (Scenario.delete_day, inr tt).
Proof.
  apply (deprecated_name_skipped (Scenario.service 204) Scenario.day_2024_03_10
           (inr Scenario.file) Scenario.opens_log "PRJ" true "old-deprecated-api" Scenario.delete_day).
  exists "old-"%string, "-api"%string. reflexivity.
Defined.

(** The settings [{verify: no, headers: {agent: s}}] merged into
    [{headers: {accept: json, agent: d}, timeout: 5}]. *)
Lemma deep_merge_keeps_other_keys_witness :
  exists d',
    PyDict [("headers"%string,
             PyDict [("accept"%string, PyAtom "json"); ("agent"%string, PyAtom "s")]);
            ("timeout"%string, PyAtom "5"); ("verify"%string, PyAtom "no")]
      = PyDict d' /\
    (forall key,
       key ∉ ["verify"; "headers"]%string ->
       dict_get key d'
         = dict_get key
             [("headers"%string,
               PyDict [("accept"%string, PyAtom "json"); ("agent"%string, PyAtom "d")]);
              ("timeout"%string, PyAtom "5")]) /\
    (forall key,
       is_Some (dict_get key
                  [("headers"%string,
                    PyDict [("accept"%string, PyAtom "json");
                            ("agent"%string, PyAtom "d")]);
                   ("timeout"%string, PyAtom "5")])
       \/ key ∈ ["verify"; "headers"]%string ->
       is_Some (dict_get key d')).
Proof.
  apply (deep_merge_keeps_other_keys
           [("verify"%string, PyAtom "no");
            ("headers"%string, PyDict [("agent"%string, PyAtom "s")])]
           [("headers"%string,
             PyDict [("accept"%string, PyAtom "json"); ("agent"%string, PyAtom "d")]);
            ("timeout"%string, PyAtom "5")]).
  reflexivity.
Defined.

Lemma deep_merge_source_wins_witness :
  dict_get "verify"
    [("headers"%string,
      PyDict [("accept"%string, PyAtom "json"); ("agent"%string, PyAtom "s")]);
     ("timeout"%string, PyAtom "5"); ("verify"%string, PyAtom "no")]
  = Some (PyAtom "no").
Proof.
  assert (Hnodup : NoDup (map fst [("verify"%string, PyAtom "no");
                                   ("headers"%string,
                                    PyDict [("agent"%string, PyAtom "s")])])).
  { repeat constructor; intros Hin;
      repeat (apply elem_of_cons in Hin as [Hin|Hin]; [discriminate|]); inversion Hin. }
  destruct (deep_merge_source_wins
              [("verify"%string, PyAtom "no");
               ("headers"%string, PyDict [("agent"%string, PyAtom "s")])]
              [("headers"%string,
                PyDict [("accept"%string, PyAtom "json"); ("agent"%string, PyAtom "d")]);
               ("timeout"%string, PyAtom "5")]
              _ Hnodup eq_refl) as [Hatoms _].
  apply Hatoms. apply elem_of_cons. left. reflexivity.
Defined.

Lemma deep_merge_dictionary_over_value_witness :
  exists e,
    deep_merge (PyDict [("auth"%string, PyDict [("user"%string, PyAtom "u")])])
      (PyDict [("auth"%string, PyAtom "token")]) = inl e.
Proof.
  destruct (deep_merge_dictionary_over_value "auth" "token"
              [("auth"%string, PyAtom "token")] [] eq_refl) as [_ Hraises].
  apply Hraises.
Defined.

Lemma branch_delete_outcome_witness :
  exists delta,
    snd (process_branches_for_deletion (Scenario.service 204) Scenario.day_2024_03_10
           Scenario.cfg Scenario.stored_release Scenario.live_branches Scenario.fresh)
    = inr (Row "release/1.0" "c1" delta DELETED).
Proof.
  destruct (branch_delete_outcome (Scenario.service 204) Scenario.day_2024_03_10
              Scenario.cfg Scenario.stored_release Scenario.live_branches Scenario.fresh
              [GetBranchPermissions "PRJ" "R"; DeleteBranchPermission "PRJ" "R" 7]
              (DeleteBranch "PRJ" "R" "release/1.0" "c1")) as [Hdeleted _].
  - vm_compute. reflexivity.
  - reflexivity.
  - apply Hdeleted. reflexivity.
Defined.


(** A commit dated 10000-01-01 makes the classification raise. *)
Example commit_of_year_10000 :
  filter_branches (fun _ _ => Response 200 (JCommit 253402300800000))
    Scenario.day_2024_03_10 Scenario.cfg Scenario.feature Scenario.fresh
  = (World [GetCommitStats "PRJ" "R" "c2"] None,
     inl (OtherError "utcfromtimestamp: timestamp out of range")).
Proof. vm_compute. reflexivity. Qed.

(** The scan of [R] for a project with a slash: the rows are stored, and
    then the log of the report cannot be opened. *)
Example scan_of_R_without_log :
  process_repository (Scenario.service 204) Scenario.day_2024_03_10 (inr Scenario.file)
    Scenario.opens_log "prj/x" false "R" (World [] (Some (ResultsDir None [])))
  = (let rows := [Row "release/1.0" "c1" 69 MARKED_FOR_DELETION;
                  Row "feature/x" "c2" 19 RETAINED;
                  Row "hotfix/2" "c4" 50 MARKED_FOR_DELETION] in
     (World [GetBranches "prj/x" "R"; GetCommitStats "prj/x" "R" "c1";
             GetCommitStats "prj/x" "R" "c2"; GetCommitStats "prj/x" "R" "c4"]
        (Some (ResultsDir (Some {["R"%string := rows]}) [])),
      inl (OtherError "OSError: the log of the project"))).
Proof. vm_compute. reflexivity. Qed.
